(** * FilamentLabelD30: the browser verification scripts

    The repository holds three Playwright scripts:

    - [scripts/verify_ui.py]                  ([verify_ui])
    - [verification/verify_manual_button.py]  ([verify_manual_button])
    - [verification/verify_analysis_ui.py]    ([verify_analysis_ui])

    Each script is embedded as a computation in a small state-and-exception
    monad.  The state is what a run can change and what can be observed of it:
    the files on disk, the lines printed to standard output, and the sequence
    of calls made to the outside (Playwright and the operating system).  The
    outside is an oracle, [Env]: it tells for every call whether the call
    raises, and what it returns when it does not. *)

From Stdlib Require Import ZArith NArith Ascii String List Lia.
From Stdlib.Strings Require Byte.
From stdpp Require Import base option list strings gmap pretty.

Local Open Scope string_scope.
Local Open Scope Z_scope.

(** ** Bytes and Python byte literals *)

Module PyBytes.

Abbreviation byte := Byte.byte.

(** Value of a hexadecimal digit of a [\xHH] escape. *)
Definition hex_digit (c : ascii) : option N :=
  let n := N_of_ascii c in
  if ((48 <=? n) && (n <=? 57))%N then Some (n - 48)%N
  else if ((97 <=? n) && (n <=? 102))%N then Some (n - 87)%N
  else if ((65 <=? n) && (n <=? 70))%N then Some (n - 55)%N
  else None.

Definition byte_of_N (n : N) : byte :=
  match Byte.of_N n with Some b => b | None => Byte.x00 end.

(** [bytes_literal s] is the value of the Python literal [b's']: the
    escapes [\xHH], [\r], [\n], [\t], [\0], [\\] and the quotes are decoded,
    every other character stands for its own code. *)
Fixpoint bytes_literal (s : string) : list byte :=
  match s with
  | EmptyString => []
  | String "\" (String "x" (String h (String l rest))) =>
      match hex_digit h, hex_digit l with
      | Some a, Some b => byte_of_N (16 * a + b) :: bytes_literal rest
      | _, _ => byte_of_ascii "\" :: byte_of_ascii "x" :: byte_of_ascii h
                  :: byte_of_ascii l :: bytes_literal rest
      end
  | String "\" (String "r" rest) => Byte.x0d :: bytes_literal rest
  | String "\" (String "n" rest) => Byte.x0a :: bytes_literal rest
  | String "\" (String "t" rest) => Byte.x09 :: bytes_literal rest
  | String "\" (String "0" rest) => Byte.x00 :: bytes_literal rest
  | String "\" (String "\" rest) => Byte.x5c :: bytes_literal rest
  | String "\" (String "'" rest) => Byte.x27 :: bytes_literal rest
  | String c rest => byte_of_ascii c :: bytes_literal rest
  end.

Definition to_Z (b : byte) : Z := Z.of_N (Byte.to_N b).

End PyBytes.

Import PyBytes.

(** The literal of [verification/verify_analysis_ui.py], line 37. *)
Definition DUMMY_PNG : list byte :=
  bytes_literal
    "\x89PNG\r\n\x1a\n\x00\x00\x00\rIHDR\x00\x00\x00\x01\x00\x00\x00\x01\x08\x06\x00\x00\x00\x1f\x15\xc4\x89\x00\x00\x00\nIDATx\x9cc\x00\x01\x00\x00\x05\x00\x01\r\n-\xb4\x00\x00\x00\x00IEND\xaeB`\x82".


(** ** The PNG container format

    A checker for the part of the PNG format (ISO/IEC 15948) that a
    non-interlaced image with stored or fixed-Huffman compressed data uses:
    signature, chunk layout, CRC-32 of every chunk, the IHDR fields, and the
    zlib stream of the IDAT data, inflated and measured against the
    dimensions declared by IHDR. *)

Module Png.

Definition signature : list Z := [137; 80; 78; 71; 13; 10; 26; 10].

(** Big-endian value of a sequence of bytes. *)
Definition be (bs : list Z) : Z := fold_left (fun acc b => acc * 256 + b) bs 0.

(** *** CRC-32 (polynomial 0xEDB88320, reflected), bit by bit *)

Definition crc_shift (c : Z) : Z :=
  if Z.testbit c 0 then Z.lxor (Z.shiftr c 1) 0xEDB88320 else Z.shiftr c 1.

Definition crc_byte (c b : Z) : Z :=
  Nat.iter 8 crc_shift (Z.lxor c b).

Definition crc32 (bs : list Z) : Z :=
  Z.lxor (fold_left crc_byte bs 0xFFFFFFFF) 0xFFFFFFFF.

(** *** Adler-32 *)

Definition adler32 (bs : list Z) : Z :=
  let '(a, b) :=
    fold_left (fun '(a, b) x => let a' := (a + x) mod 65521 in (a', (b + a') mod 65521))
              bs (1, 0) in
  b * 65536 + a.

(** *** Chunks *)

Record chunk := { c_type : list Z; c_data : list Z; c_crc : Z }.

Definition chunk_crc_ok (c : chunk) : bool :=
  Z.eqb (crc32 (c_type c ++ c_data c)) (c_crc c).

(** Cut a byte sequence into chunks: length (4), type (4), data, CRC (4). *)
Fixpoint chunks (fuel : nat) (bs : list Z) : option (list chunk) :=
  match fuel with
  | O => None
  | S fuel' =>
      match bs with
      | [] => Some []
      | l1 :: l2 :: l3 :: l4 :: t1 :: t2 :: t3 :: t4 :: rest =>
          let len := Z.to_nat (be [l1; l2; l3; l4]) in
          if (length rest <? len + 4)%nat then None
          else
            let c := {| c_type := [t1; t2; t3; t4];
                        c_data := take len rest;
                        c_crc := be (take 4 (drop len rest)) |} in
            match chunks fuel' (drop (len + 4) rest) with
            | Some cs => Some (c :: cs)
            | None => None
            end
      | _ => None
      end
  end.

Definition IHDR : list Z := [73; 72; 68; 82].
Definition IDAT : list Z := [73; 68; 65; 84].
Definition IEND : list Z := [73; 69; 78; 68].

Definition is_type (t : list Z) (c : chunk) : bool :=
  bool_decide (c_type c = t).

Record header := {
  width : Z; height : Z; bit_depth : Z; colour_type : Z;
  compression : Z; filter_method : Z; interlace : Z }.

Definition parse_header (c : chunk) : option header :=
  if is_type IHDR c then
    match c_data c with
    | [w1; w2; w3; w4; h1; h2; h3; h4; d; ct; cm; fm; il] =>
        Some {| width := be [w1; w2; w3; w4]; height := be [h1; h2; h3; h4];
                bit_depth := d; colour_type := ct;
                compression := cm; filter_method := fm; interlace := il |}
    | _ => None
    end
  else None.

(** Samples per pixel of a colour type, when the bit depth is allowed
    for it. *)
Definition samples (h : header) : option Z :=
  let d := bit_depth h in
  let among (l : list Z) := bool_decide (d ∈ l) in
  match colour_type h with
  | 0 => if among [1; 2; 4; 8; 16] then Some 1 else None
  | 2 => if among [8; 16] then Some 3 else None
  | 3 => if among [1; 2; 4; 8] then Some 1 else None
  | 4 => if among [8; 16] then Some 2 else None
  | 6 => if among [8; 16] then Some 4 else None
  | _ => None
  end.

(** Bytes of one scanline: the filter byte and the packed pixels. *)
Definition scanline_bytes (h : header) (spp : Z) : Z :=
  1 + (width h * spp * bit_depth h + 7) / 8.

(** *** Inflate (RFC 1951): stored and fixed-Huffman blocks *)

Definition bits_of_byte (b : Z) : list bool :=
  map (Z.testbit b) [0; 1; 2; 3; 4; 5; 6; 7].

Definition bits_of (bs : list Z) : list bool := flat_map bits_of_byte bs.

(** [n] bits read as a number, least significant bit first. *)
Fixpoint take_lsb (n : nat) (bits : list bool) : option (Z * list bool) :=
  match n, bits with
  | O, _ => Some (0, bits)
  | S _, [] => None
  | S n', b :: rest =>
      '(v, rest') ← take_lsb n' rest; Some (Z.b2z b + 2 * v, rest')
  end.

(** [n] bits of a Huffman code, most significant bit first. *)
Fixpoint take_msb (n : nat) (acc : Z) (bits : list bool) : option (Z * list bool) :=
  match n, bits with
  | O, _ => Some (acc, bits)
  | S _, [] => None
  | S n', b :: rest => take_msb n' (2 * acc + Z.b2z b) rest
  end.

(** The fixed literal/length code: 7, 8 or 9 bits. *)
Definition fixed_symbol (bits : list bool) : option (Z * list bool) :=
  '(c7, r7) ← take_msb 7 0 bits;
  if c7 <=? 23 then Some (256 + c7, r7)
  else
    '(c8, r8) ← take_msb 1 c7 r7;
    if (48 <=? c8) && (c8 <=? 191) then Some (c8 - 48, r8)
    else if (192 <=? c8) && (c8 <=? 199) then Some (280 + (c8 - 192), r8)
    else
      '(c9, r9) ← take_msb 1 c8 r8;
      if 400 <=? c9 then Some (144 + (c9 - 400), r9) else None.

Definition length_base : list Z :=
  [3; 4; 5; 6; 7; 8; 9; 10; 11; 13; 15; 17; 19; 23; 27; 31; 35; 43; 51; 59;
   67; 83; 99; 115; 131; 163; 195; 227; 258].
Definition length_extra : list nat :=
  [0; 0; 0; 0; 0; 0; 0; 0; 1; 1; 1; 1; 2; 2; 2; 2; 3; 3; 3; 3;
   4; 4; 4; 4; 5; 5; 5; 5; 0]%nat.
Definition distance_base : list Z :=
  [1; 2; 3; 4; 5; 7; 9; 13; 17; 25; 33; 49; 65; 97; 129; 193; 257; 385; 513;
   769; 1025; 1537; 2049; 3073; 4097; 6145; 8193; 12289; 16385; 24577].
Definition distance_extra : list nat :=
  [0; 0; 0; 0; 1; 1; 2; 2; 3; 3; 4; 4; 5; 5; 6; 6; 7; 7; 8; 8;
   9; 9; 10; 10; 11; 11; 12; 12; 13; 13]%nat.

(** Copy [n] bytes from [d] bytes back; [out] holds the output so far,
    newest byte first. *)
Fixpoint copy (n : nat) (d : nat) (out : list Z) : option (list Z) :=
  match n with
  | O => Some out
  | S n' => x ← out !! pred d; copy n' d (x :: out)
  end.

Fixpoint fixed_block (fuel : nat) (bits : list bool) (out : list Z)
  : option (list bool * list Z) :=
  match fuel with
  | O => None
  | S fuel' =>
      '(sym, r) ← fixed_symbol bits;
      if sym <? 256 then fixed_block fuel' r (sym :: out)
      else if sym =? 256 then Some (r, out)
      else
        let i := Z.to_nat (sym - 257) in
        lb ← length_base !! i;
        le ← length_extra !! i;
        '(xl, r1) ← take_lsb le r;
        '(dc, r2) ← take_msb 5 0 r1;
        db ← distance_base !! Z.to_nat dc;
        de ← distance_extra !! Z.to_nat dc;
        '(xd, r3) ← take_lsb de r2;
        guard (db + xd <= Z.of_nat (length out));;
        out' ← copy (Z.to_nat (lb + xl)) (Z.to_nat (db + xd)) out;
        fixed_block fuel' r3 out'
  end.

(** Bytes read from a bit stream that stands at a byte boundary. *)
Fixpoint take_bytes (n : nat) (bits : list bool) (out : list Z)
  : option (list bool * list Z) :=
  match n with
  | O => Some (bits, out)
  | S n' => '(b, r) ← take_lsb 8 bits; take_bytes n' r (b :: out)
  end.

Definition stored_block (bits : list bool) (out : list Z)
  : option (list bool * list Z) :=
  let aligned := drop (length bits mod 8) bits in
  '(len, r1) ← take_lsb 16 aligned;
  '(nlen, r2) ← take_lsb 16 r1;
  guard (len + nlen = 65535);;
  take_bytes (Z.to_nat len) r2 out.

Fixpoint blocks (fuel : nat) (bits : list bool) (out : list Z)
  : option (list bool * list Z) :=
  match fuel with
  | O => None
  | S fuel' =>
      '(final, r0) ← take_lsb 1 bits;
      '(btype, r1) ← take_lsb 2 r0;
      '(r2, out') ← (if btype =? 0 then stored_block r1 out
                     else if btype =? 1 then fixed_block (length r1) r1 out
                     else None);
      if final =? 1 then Some (r2, out') else blocks fuel' r2 out'
  end.

(** *** The zlib stream (RFC 1950) *)

Definition zlib_decompress (bs : list Z) : option (list Z) :=
  match bs with
  | cmf :: flg :: body =>
      guard (cmf mod 16 = 8 ∧ cmf / 16 <= 7 ∧ (cmf * 256 + flg) mod 31 = 0
             ∧ Z.testbit flg 5 = false);;
      '(rest, out_rev) ← blocks (length body) (bits_of body) [];
      let out := rev out_rev in
      guard ((length rest / 8)%nat = 4%nat
             ∧ be (drop (length body - 4) body) = adler32 out);;
      Some out
  | _ => None
  end.

(** *** The whole file *)

Definition ancillary (c : chunk) : bool :=
  match c_type c with t1 :: _ => Z.testbit t1 5 | [] => false end.

Fixpoint skip_while (p : chunk -> bool) (cs : list chunk) : list chunk :=
  match cs with
  | c :: rest => if p c then skip_while p rest else cs
  | [] => []
  end.

(** The chunks between IHDR and IEND: ancillary chunks around one run of
    IDAT chunks (IDAT is not ancillary). *)
Definition middle_ok (cs : list chunk) : bool :=
  match skip_while ancillary cs with
  | c :: rest =>
      is_type IDAT c && forallb ancillary (skip_while (is_type IDAT) rest)
  | [] => false
  end.

Definition image_data (cs : list chunk) : list Z :=
  flat_map c_data (filter (fun c => is_type IDAT c = true) cs).

Fixpoint scanlines_ok (rows : nat) (line : nat) (raw : list Z) : bool :=
  match rows with
  | O => bool_decide (raw = [])
  | S rows' =>
      match raw with
      | f :: _ => (f <=? 4) && (line <=? length raw)%nat
                  && scanlines_ok rows' line (drop line raw)
      | [] => false
      end
  end.

(** [check bs] is the header of [bs] when [bs] is a well-formed PNG file
    within the part of the format described above. *)
Definition check (bs : list Z) : option header :=
  guard (take 8 bs = signature);;
  cs ← chunks (length bs) (drop 8 bs);
  guard (forallb chunk_crc_ok cs = true);;
  match cs with
  | first :: rest =>
      h ← parse_header first;
      spp ← samples h;
      guard (1 <= width h < 2 ^ 31 ∧ 1 <= height h < 2 ^ 31
             ∧ colour_type h ≠ 3 ∧ compression h = 0 ∧ filter_method h = 0
             ∧ interlace h = 0);;
      last ← rest !! pred (length rest);
      guard (is_type IEND last = true ∧ c_data last = []);;
      let middle := take (pred (length rest)) rest in
      guard (middle_ok middle = true);;
      raw ← zlib_decompress (image_data middle);
      guard (scanlines_ok (Z.to_nat (height h))
                          (Z.to_nat (scanline_bytes h spp)) raw = true);;
      Some h
  | [] => None
  end.

Definition valid (bs : list Z) : bool := bool_decide (is_Some (check bs)).

(** A file is minimal when it holds nothing but the three chunks every
    PNG file must have, for an image of one pixel, the smallest there is. *)
Definition minimal (bs : list Z) : bool :=
  match chunks (length bs) (drop 8 bs), check bs with
  | Some [a; b; c], Some h =>
      is_type IHDR a && is_type IDAT b && is_type IEND c
      && (width h * height h =? 1)
  | _, _ => false
  end.

End Png.

(** ** Python exceptions *)

(** The classes of the exceptions a run can meet.  [Error] is Playwright's
    error class and [TimeoutError] its subclass; [OSError] comes from file
    operations.  These derive from [Exception].  [KeyboardInterrupt] derives
    from [BaseException] only. *)
Inductive exn_class := Error | TimeoutError | OSError | KeyboardInterrupt.

(** An exception object: its class and [str(e)]. *)
Record exn := Exn { class_of : exn_class; str : string }.

(** [isinstance(e, Exception)]: what the clause [except Exception as e]
    tests. *)
Definition is_Exception (e : exn) : bool :=
  match class_of e with
  | KeyboardInterrupt => false
  | Error | TimeoutError | OSError => true
  end.

(** ** Calls to the outside *)

(** A Playwright locator: [page.locator(sel)], [page.get_by_text(t)],
    [loc.first].  Building a locator does not touch the browser. *)
Inductive Locator :=
| locator (selector : string)
| get_by_text (text : string)
| first (l : Locator).

Inductive Call :=
| sync_playwright_enter
| sync_playwright_exit
| chromium_launch (headless : bool)
| browser_new_context (viewport_width viewport_height : Z)
| context_new_page
| page_goto (url : string)
| page_wait_for_selector (selector : string) (timeout : option Z)
| page_screenshot (path : string)
| locator_click (l : Locator)
| locator_is_visible (l : Locator)
| locator_scroll_into_view_if_needed (l : Locator)
| locator_set_input_files (l : Locator) (files : string)
| open_wb (path : string)
| file_write (path : string) (data : list byte)
| browser_close.

Inductive Value := VNone | VBool (b : bool) | VInt (n : Z) | VBytes (bs : list byte).

Inductive Outcome := Returned (v : Value) | Raised (e : exn).

Record Event := Ev { ev_call : Call; ev_outcome : Outcome }.

(** The outside of one run: the browser, the application, and the disk as
    far as it makes a call fail (a missing directory, a file in the way).
    An outside tells how the calls of one run on one disk end; it does not
    see the files of the model, so it is not to be shared by two runs that
    start on different files.  Every field sees the calls made so far.
    - [env_raises h c]: the exception call [c] raises, if it raises for a
      reason of the outside (page crashed, connection refused, no such
      directory, element missing, interrupt, ...);
    - [env_visible h l]: what [l.is_visible()] returns;
    - [env_appears h sel]: after how many milliseconds an element matching
      [sel] is attached and visible, [None] when it never is;
    - [env_image h]: the PNG bytes a screenshot captures. *)
Record Env := {
  env_raises : list Event -> Call -> option exn;
  env_visible : list Event -> Locator -> bool;
  env_appears : list Event -> string -> option Z;
  env_image : list Event -> list byte }.

(** ** The state of a run *)

Record World := {
  fs : gmap string (list byte);   (* files on disk, by path *)
  stdout : list string;           (* lines printed, oldest first *)
  trace : list Event }.           (* calls made, oldest first *)

Definition record (c : Call) (o : Outcome) (w : World) : World :=
  {| fs := fs w; stdout := stdout w; trace := trace w ++ [Ev c o] |}.

Definition store (path : string) (content : list byte) (w : World) : World :=
  {| fs := <[path := content]> (fs w); stdout := stdout w; trace := trace w |}.

Definition emit (line : string) (w : World) : World :=
  {| fs := fs w; stdout := stdout w ++ [line]; trace := trace w |}.

(** ** The monad of scripts *)

Inductive Res (A : Type) := Ok (a : A) | Raise (e : exn).
Arguments Ok {A} a.
Arguments Raise {A} e.

Definition M (A : Type) : Type := Env -> World -> Res A * World.

Definition ret {A} (a : A) : M A := fun _ w => (Ok a, w).

Definition bind {A B} (m : M A) (k : A -> M B) : M B :=
  fun env w =>
    match m env w with
    | (Ok a, w1) => k a env w1
    | (Raise e, w1) => (Raise e, w1)
    end.

#[global] Instance M_ret : MRet M := @ret.
#[global] Instance M_bind : MBind M := fun A B k m => bind m k.

Definition raise {A} (e : exn) : M A := fun _ w => (Raise e, w).

(** [try: body / except Exception as e: handler e].  The handler runs for
    the exceptions that are instances of [Exception]; any other exception
    goes on. *)
Definition try_except (body : M unit) (handler : exn -> M unit) : M unit :=
  fun env w =>
    match body env w with
    | (Ok tt, w1) => (Ok tt, w1)
    | (Raise e, w1) => if is_Exception e then handler e env w1 else (Raise e, w1)
    end.

(** [try: body / finally: final].  The final block runs on every path; when
    it raises, its exception replaces whatever was pending. *)
Definition try_finally (body : M unit) (final : M unit) : M unit :=
  fun env w =>
    let '(r1, w1) := body env w in
    match final env w1 with
    | (Ok tt, w2) => (r1, w2)
    | (Raise e, w2) => (Raise e, w2)
    end.

(** [try: body / except Exception as e: handler e / finally: final] *)
Definition try_except_finally (body : M unit) (handler : exn -> M unit)
    (final : M unit) : M unit :=
  try_finally (try_except body handler) final.

(** How a call ends: the outside may make it raise; otherwise [answer]
    tells. *)
Definition outcome (c : Call) (answer : Env -> list Event -> Outcome)
    (env : Env) (h : list Event) : Outcome :=
  match env_raises env h c with
  | Some e => Raised e
  | None => answer env h
  end.

(** One call.  However it ends, it is recorded. *)
Definition call (c : Call) (answer : Env -> list Event -> Outcome) : M Value :=
  fun env w =>
    let o := outcome c answer env (trace w) in
    (match o with Returned v => Ok v | Raised e => Raise e end, record c o w).

Definition returns_None : Env -> list Event -> Outcome := fun _ _ => Returned VNone.

Definition modify (f : World -> World) : M unit := fun _ w => (Ok tt, f w).

Definition get_file (path : string) : M (option (list byte)) :=
  fun _ w => (Ok (fs w !! path), w).

(** ** The library calls the scripts make *)

Record Browser := { headless : bool }.
Record BrowserContext := { context_browser : Browser; viewport : Z * Z }.
Record Page := { page_context : BrowserContext }.

(** The double quote character, as a string. *)
Definition dquote : string := String (ascii_of_nat 34) EmptyString.

(** [print(line)] *)
Definition print (line : string) : M unit := modify (emit line).

(** [with sync_playwright() as p: body]: Playwright is started; when the
    block is left, normally or by an exception, it is stopped.  The context
    manager does not suppress the exception of the body; an exception of the
    exit replaces it. *)
Definition with_sync_playwright (body : M unit) : M unit :=
  call sync_playwright_enter returns_None;;
  try_finally body (call sync_playwright_exit returns_None;; mret tt).

(** [p.chromium.launch(headless=h)] *)
Definition launch (h : bool) : M Browser :=
  call (chromium_launch h) returns_None;; mret {| headless := h |}.

(** [browser.new_context(viewport={"width": w, "height": h})] *)
Definition new_context (b : Browser) (width height : Z) : M BrowserContext :=
  call (browser_new_context width height) returns_None;;
  mret {| context_browser := b; viewport := (width, height) |}.

(** [context.new_page()] *)
Definition new_page (c : BrowserContext) : M Page :=
  call context_new_page returns_None;; mret {| page_context := c |}.

(** [page.goto(url)] *)
Definition goto (_ : Page) (url : string) : M unit :=
  call (page_goto url) returns_None;; mret tt.

(** [page.screenshot(path=path)]: the captured image is written to [path]
    and returned. *)
Definition screenshot (_ : Page) (path : string) : M unit :=
  v ← call (page_screenshot path) (fun env h => Returned (VBytes (env_image env h)));
  match v with
  | VBytes img => modify (store path img)
  | _ => mret tt
  end.

(** Modelled from the spec: the timeout of Playwright when the [timeout]
    argument is left out.  The library is not part of the repository; the
    spec gives its default as 30 s. *)
Definition DEFAULT_TIMEOUT : Z := 30000.

Definition effective_timeout (timeout : option Z) : Z :=
  match timeout with Some t => t | None => DEFAULT_TIMEOUT end.

Definition timeout_exceeded (t : Z) : exn :=
  Exn TimeoutError ("Timeout " ++ pretty t ++ "ms exceeded.").

(** Modelled from the spec: [page.wait_for_selector(sel)] and
    [page.wait_for_selector(sel, timeout=t)] of Playwright, which the spec
    describes as a wait for the text up to the timeout that fails with a
    timeout error when the text is not observed in time.  The call returns
    once an element matching [sel] is visible and raises [TimeoutError] when
    none is within the timeout.  (The value 0, which switches the timeout
    off, is passed by no script and is not modelled.) *)
Definition wait_for_selector (_ : Page) (sel : string) (timeout : option Z) : M unit :=
  call (page_wait_for_selector sel timeout)
       (fun env h =>
          match env_appears env h sel with
          | Some d =>
              if d <=? effective_timeout timeout then Returned VNone
              else Raised (timeout_exceeded (effective_timeout timeout))
          | None => Raised (timeout_exceeded (effective_timeout timeout))
          end);;
  mret tt.

(** [loc.click()] *)
Definition click (l : Locator) : M unit :=
  call (locator_click l) returns_None;; mret tt.

(** [loc.is_visible()] *)
Definition is_visible (l : Locator) : M bool :=
  v ← call (locator_is_visible l) (fun env h => Returned (VBool (env_visible env h l)));
  match v with VBool b => mret b | _ => mret false end.

(** [loc.scroll_into_view_if_needed()] *)
Definition scroll_into_view_if_needed (l : Locator) : M unit :=
  call (locator_scroll_into_view_if_needed l) returns_None;; mret tt.

(** [loc.set_input_files(path)]: the file at [path] is read from disk and
    handed to the input element; a missing file is an error. *)
Definition set_input_files (l : Locator) (path : string) : M unit :=
  content ← get_file path;
  call (locator_set_input_files l path)
       (fun _ _ =>
          match content with
          | Some _ => Returned VNone
          | None => Raised (Exn OSError ("No such file or directory: " ++ path))
          end);;
  mret tt.

(** [with open(path, "wb") as f: f.write(data)].  Mode ["wb"] creates the
    file or truncates the one that is there; [write] appends at the
    position, which is the end.  Leaving the block closes the file. *)
Definition open_write (path : string) (data : list byte) : M unit :=
  call (open_wb path) returns_None;;
  modify (store path []);;
  call (file_write path data) (fun _ _ => Returned (VInt (Z.of_nat (length data))));;
  old ← get_file path;
  modify (store path (default [] old ++ data)).

(** [browser.close()] *)
Definition close (_ : Browser) : M unit :=
  call browser_close returns_None;; mret tt.

(** ** The scripts *)

(** *** [scripts/verify_ui.py] *)

Definition verify_ui : M unit :=
  with_sync_playwright (
    browser ← launch true;
    context ← new_context browser 393 852;
    page ← new_page context;
    goto page "http://localhost:3000/";;
    screenshot page "/home/jules/verification/home_v2.png";;
    print "Home screenshot taken";;
    click (get_by_text "Manual");;
    screenshot page "/home/jules/verification/editor_v2.png";;
    print "Editor screenshot taken";;
    close browser).

(** *** [verification/verify_manual_button.py] *)

(** The [try] block, lines 12 to 35. *)
Definition verify_manual_button_steps (page : Page) : M unit :=
  print "Navigating to home...";;
  goto page "http://localhost:3000";;
  print "Waiting for 'Filament ID'...";;
  wait_for_selector page "text=Filament ID" None;;
  let manual_btn := first (locator "text=Manual") in
  print "Checking visibility...";;
  visible ← is_visible manual_btn;
  if visible : bool then
    print "Manual button visible.";;
    scroll_into_view_if_needed manual_btn;;
    print "Taking screenshot...";;
    screenshot page "verification/manual_button_check.png";;
    print "Screenshot saved to verification/manual_button_check.png"
  else
    print "Manual button NOT visible!".

(** The [except Exception as e] block, lines 38 and 39. *)
Definition verify_manual_button_except (page : Page) (e : exn) : M unit :=
  print ("Error: " ++ str e);;
  screenshot page "verification/error.png".

(** The [try] statement, lines 11 to 41. *)
Definition verify_manual_button_try (browser : Browser) (page : Page) : M unit :=
  try_except_finally
    (verify_manual_button_steps page)
    (verify_manual_button_except page)
    (close browser).

Definition verify_manual_button : M unit :=
  with_sync_playwright (
    browser ← launch true;
    context ← new_context browser 393 852;
    page ← new_page context;
    verify_manual_button_try browser page).

(** *** [verification/verify_analysis_ui.py] *)

(** The [try] block, lines 13 to 52.  ([import os] on line 35 has no
    effect on the run.) *)
Definition verify_analysis_ui_steps (page : Page) : M unit :=
  print "Navigating to home...";;
  goto page "http://localhost:3000";;
  print "Uploading dummy image...";;
  open_write "verification/dummy.png" DUMMY_PNG;;
  let file_input := locator ("input[type=" ++ dquote ++ "file" ++ dquote ++ "]") in
  set_input_files file_input "verification/dummy.png";;
  print "Waiting for Analysis View...";;
  wait_for_selector page "text=NEURAL SCAN" (Some 5000);;
  print "Taking screenshot...";;
  screenshot page "verification/analysis_ui_check.png";;
  print "Screenshot saved to verification/analysis_ui_check.png".

(** The [except Exception as e] block, lines 55 and 56. *)
Definition verify_analysis_ui_except (page : Page) (e : exn) : M unit :=
  print ("Error: " ++ str e);;
  screenshot page "verification/error_analysis.png".

(** The [try] statement, lines 12 to 58. *)
Definition verify_analysis_ui_try (browser : Browser) (page : Page) : M unit :=
  try_except_finally
    (verify_analysis_ui_steps page)
    (verify_analysis_ui_except page)
    (close browser).

Definition verify_analysis_ui : M unit :=
  with_sync_playwright (
    browser ← launch true;
    context ← new_context browser 393 852;
    page ← new_page context;
    verify_analysis_ui_try browser page).

(** ** Runs *)

(** A script runs in a process of its own: nothing printed yet, no call made
    yet, over the files that are on disk. *)
Definition initial (files : gmap string (list byte)) : World :=
  {| fs := files; stdout := []; trace := [] |}.

Definition run (script : M unit) (env : Env) (files : gmap string (list byte))
  : Res unit * World :=
  script env (initial files).


Definition result (script : M unit) (env : Env) (files : gmap string (list byte))
  : Res unit := fst (run script env files).

Definition final (script : M unit) (env : Env) (files : gmap string (list byte))
  : World := snd (run script env files).

(** ** Reading a trace *)

Definition returned (ev : Event) : bool :=
  match ev_outcome ev with Returned _ => true | Raised _ => false end.

Definition calls (tr : list Event) : list Call := map ev_call tr.

Definition is_screenshot (c : Call) : bool :=
  match c with page_screenshot _ => true | _ => false end.

(** The files the calls of a trace have created or replaced, in order. *)
Definition files_written (tr : list Event) : list string :=
  flat_map (fun ev =>
              match ev with
              | Ev (page_screenshot path) (Returned _) => [path]
              | Ev (open_wb path) (Returned _) => [path]
              | _ => []
              end) tr.

(** ** The two scripts with a [try] statement, and the three scripts *)

(** The two [except] blocks are the same up to the path of the screenshot. *)
Definition error_screenshot (path : string) (page : Page) (e : exn) : M unit :=
  print ("Error: " ++ str e);;
  screenshot page path.

(** How a pending result and the outcome of the call in [finally] combine. *)
Definition after_finally (pending : Res unit) (o : Outcome) : Res unit :=
  match o with
  | Returned _ => pending
  | Raised e => Raise e
  end.

Definition res_of (o : Outcome) : Res unit :=
  match o with
  | Returned _ => Ok tt
  | Raised e => Raise e
  end.

(** The two scripts that have a [try] statement. *)
Inductive Guarded := ManualButton | AnalysisUI.

Definition steps_of (s : Guarded) : Page -> M unit :=
  match s with
  | ManualButton => verify_manual_button_steps
  | AnalysisUI => verify_analysis_ui_steps
  end.

Definition except_of (s : Guarded) : Page -> exn -> M unit :=
  match s with
  | ManualButton => verify_manual_button_except
  | AnalysisUI => verify_analysis_ui_except
  end.

Definition try_of (s : Guarded) : Browser -> Page -> M unit :=
  match s with
  | ManualButton => verify_manual_button_try
  | AnalysisUI => verify_analysis_ui_try
  end.

(** The path given to [page.screenshot] in the [except] block. *)
Definition error_path (s : Guarded) : string :=
  match s with
  | ManualButton => "verification/error.png"
  | AnalysisUI => "verification/error_analysis.png"
  end.

(** The three scripts of the repository. *)
Inductive Script := VerifyUI | VerifyManualButton | VerifyAnalysisUI.

Definition script_of (s : Script) : M unit :=
  match s with
  | VerifyUI => verify_ui
  | VerifyManualButton => verify_manual_button
  | VerifyAnalysisUI => verify_analysis_ui
  end.

(** The script a [try] statement belongs to. *)
Definition guarded_script (s : Guarded) : M unit :=
  match s with
  | ManualButton => verify_manual_button
  | AnalysisUI => verify_analysis_ui
  end.

(** The state in which the [try] statement of a script is entered: the four
    calls before it have returned, nothing is printed yet. *)
Definition entered (files : gmap string (list byte)) : World :=
  {| fs := files; stdout := [];
     trace := [ Ev sync_playwright_enter (Returned VNone);
                Ev (chromium_launch true) (Returned VNone);
                Ev (browser_new_context 393 852) (Returned VNone);
                Ev context_new_page (Returned VNone) ] |}.

(** The four calls before the [try] statement return. *)
Definition setup_returns (env : Env) : Prop :=
  env_raises env [] sync_playwright_enter = None
  ∧ env_raises env (take 1 (trace (entered ∅))) (chromium_launch true) = None
  ∧ env_raises env (take 2 (trace (entered ∅))) (browser_new_context 393 852)
    = None
  ∧ env_raises env (take 3 (trace (entered ∅))) context_new_page = None.

(** ** Properties of events *)

(** [is_visible()] has returned false. *)
Definition found_hidden (ev : Event) : bool :=
  match ev with
  | Ev (locator_is_visible _) (Returned (VBool false)) => true
  | _ => false
  end.

Definition opened_fixture (ev : Event) : bool :=
  match ev with
  | Ev (open_wb _) (Returned _) => true
  | _ => false
  end.

Definition wrote_fixture (ev : Event) : bool :=
  match ev with
  | Ev (file_write _ _) (Returned _) => true
  | _ => false
  end.

(** The calls of the [try] block of [verify_analysis_ui] from the upload on. *)
Definition at_or_after_upload (c : Call) : bool :=
  match c with
  | locator_set_input_files _ _ => true
  | page_wait_for_selector _ _ => true
  | page_screenshot path => String.eqb path "verification/analysis_ui_check.png"
  | _ => false
  end.

Definition failed_at (p : Call -> bool) (ev : Event) : bool :=
  p (ev_call ev) && negb (returned ev).

(** A property of every event of a trace, given the events before it. *)
Fixpoint each_event (P : list Event -> Event -> Prop)
    (before rest : list Event) : Prop :=
  match rest with
  | [] => True
  | ev :: rest' => P before ev ∧ each_event P (before ++ [ev]) rest'
  end.

(** The waits as they are written: the script, the selector and the timeout
    go together as in the sources. *)
Definition wait_as_written (sc : Script) (sel : string) (t : option Z) : Prop :=
  (sc = VerifyManualButton ∧ sel = "text=Filament ID" ∧ t = None
   ∧ effective_timeout t = 30000)
  ∨ (sc = VerifyAnalysisUI ∧ sel = "text=NEURAL SCAN" ∧ t = Some 5000
     ∧ effective_timeout t = 5000).

(** A wait is bounded by its timeout, and by nothing less: it returns only
    when the text showed within the timeout; when the text does not show
    within it, the wait raises, and what it raises is the timeout error
    unless the outside made the call fail; when the text shows within the
    timeout and the outside does not make the call fail, the wait returns;
    and when the outside makes the call fail, the wait raises that
    exception. *)
Definition wait_bounded (env : Env) (before : list Event) (sel : string)
    (t : option Z) (o : Outcome) : Prop :=
  (∀ v, o = Returned v ->
     ∃ d, env_appears env before sel = Some d ∧ d <= effective_timeout t)
  ∧ ((∀ d, env_appears env before sel = Some d -> effective_timeout t < d) ->
     ∃ e, o = Raised e
       ∧ (env_raises env before (page_wait_for_selector sel t) = None ->
          e = timeout_exceeded (effective_timeout t)))
  ∧ (∀ d, env_appears env before sel = Some d ->
       d <= effective_timeout t ->
       env_raises env before (page_wait_for_selector sel t) = None ->
       o = Returned VNone)
  ∧ (∀ e, env_raises env before (page_wait_for_selector sel t) = Some e ->
       o = Raised e).

Definition wait_event_ok (sc : Script) (env : Env) (before : list Event)
    (ev : Event) : Prop :=
  match ev with
  | Ev (page_wait_for_selector sel t) o =>
      wait_as_written sc sel t ∧ wait_bounded env before sel t o
  | _ => True
  end.

(** ** Some outsides and objects to run the scripts against *)

Definition the_browser : Browser := {| headless := true |}.

Definition the_page : Page :=
  {| page_context :=
       {| context_browser := the_browser; viewport := (393, 852) |} |}.

Definition refused : exn :=
  Exn Error "net::ERR_CONNECTION_REFUSED at http://localhost:3000".

Definition crashed : exn :=
  Exn Error "Target page, context or browser has been closed".

Definition interrupt : exn := Exn KeyboardInterrupt "".

(** An outside in which the calls picked by [bad] raise and all others
    return; elements are visible according to [visible], texts appear after
    [delay]. *)
Definition outside (bad : Call -> option exn) (visible : bool)
    (delay : option Z) : Env :=
  {| env_raises := fun _ c => bad c;
     env_visible := fun _ _ => visible;
     env_appears := fun _ _ => delay;
     env_image := fun _ => [] |}.

(** An outside in which no call raises, every element is visible at once,
    and screenshots are the bytes [img]. *)
Definition cooperative (img : list byte) : Env :=
  {| env_raises := fun _ _ => None;
     env_visible := fun _ _ => true;
     env_appears := fun _ _ => Some 0;
     env_image := fun _ => img |}.

(** The application is not served: navigation fails. *)
Definition server_down : Env :=
  outside (fun c => match c with page_goto _ => Some refused | _ => None end)
          true (Some 0).

(** The application is not served and the page is lost as well: navigation
    fails, and so does every screenshot. *)
Definition page_lost : Env :=
  outside (fun c => match c with
                    | page_goto _ => Some refused
                    | page_screenshot _ => Some crashed
                    | _ => None
                    end)
          true (Some 0).

(** The user interrupts the run during navigation. *)
Definition interrupted : Env :=
  outside (fun c => match c with page_goto _ => Some interrupt | _ => None end)
          true (Some 0).

(** An outside in which nothing raises and the button is not visible. *)
Definition button_hidden : Env := outside (fun _ => None) false (Some 0).

(** The text awaited by [verify_analysis_ui] never shows. *)
Definition no_analysis_view : Env := outside (fun _ => None) true None.

(** Every awaited text shows after ten seconds. *)
Definition slow_page : Env := outside (fun _ => None) true (Some 10000).

Definition stale : list byte := bytes_literal "an older file".

(** ** More properties of runs *)

(** The path given to [page.screenshot] at the end of the [try] block. *)
Definition regular_path (s : Guarded) : string :=
  match s with
  | ManualButton => "verification/manual_button_check.png"
  | AnalysisUI => "verification/analysis_ui_check.png"
  end.

(** The paths a script names in a call that writes a file. *)
Definition output_paths (sc : Script) : list string :=
  match sc with
  | VerifyUI =>
      [ "/home/jules/verification/home_v2.png";
        "/home/jules/verification/editor_v2.png" ]
  | VerifyManualButton =>
      [ "verification/manual_button_check.png"; "verification/error.png" ]
  | VerifyAnalysisUI =>
      [ "verification/dummy.png"; "verification/analysis_ui_check.png";
        "verification/error_analysis.png" ]
  end.

(** The lines that announce a screenshot, with the path they speak of. *)
Definition announcements (sc : Script) : list (string * string) :=
  match sc with
  | VerifyUI =>
      [ ("Home screenshot taken", "/home/jules/verification/home_v2.png");
        ("Editor screenshot taken", "/home/jules/verification/editor_v2.png") ]
  | VerifyManualButton =>
      [ ("Screenshot saved to verification/manual_button_check.png",
         "verification/manual_button_check.png") ]
  | VerifyAnalysisUI =>
      [ ("Screenshot saved to verification/analysis_ui_check.png",
         "verification/analysis_ui_check.png") ]
  end.

(** The paths of the screenshots that returned, in order. *)
Definition screenshots_taken (tr : list Event) : list string :=
  flat_map (fun ev =>
              match ev with
              | Ev (page_screenshot path) (Returned _) => [path]
              | _ => []
              end) tr.

(** The exception of the last call that raised. *)
Definition last_raised (tr : list Event) : option exn :=
  fold_left (fun acc ev =>
               match ev_outcome ev with
               | Raised e => Some e
               | Returned _ => acc
               end) tr None.

(** The calls between the start of Playwright and the first step. *)
Definition is_setup (c : Call) : bool :=
  match c with
  | chromium_launch _ | browser_new_context _ _ | context_new_page => true
  | _ => false
  end.

Definition is_browser_close (c : Call) : bool :=
  match c with browser_close => true | _ => false end.

Definition is_playwright_exit (c : Call) : bool :=
  match c with sync_playwright_exit => true | _ => false end.

(** The most calls a run makes: all of them, for [verify_ui]; for the other
    two, all the steps, the last of which fails, and then the [except] and
    [finally] blocks. *)
Definition most_calls (sc : Script) : nat :=
  match sc with
  | VerifyUI => 10
  | VerifyManualButton => 12
  | VerifyAnalysisUI => 13
  end.

(** Equality of calls is decidable. *)
#[global] Instance byte_eq_decision : EqDecision byte := Byte.byte_eq_dec.

#[global] Instance Locator_eq_decision : EqDecision Locator.
Proof. solve_decision. Defined.

#[global] Instance Call_eq_decision : EqDecision Call.
Proof. solve_decision. Defined.

(** The browser cannot be launched. *)
Definition no_browser : Env :=
  outside (fun c => match c with
                    | chromium_launch _ => Some crashed
                    | _ => None
                    end)
          true (Some 0).

(** ** Symbolic execution *)

Lemma outcome_returned c answer env h v :
  outcome c answer env h = Returned v ->
  env_raises env h c = None ∧ answer env h = Returned v.
Proof. unfold outcome. destruct (env_raises env h c); [discriminate | auto]. Qed.

Lemma outcome_raised c answer env h e :
  outcome c answer env h = Raised e ->
  env_raises env h c = Some e
  ∨ (env_raises env h c = None ∧ answer env h = Raised e).
Proof.
  unfold outcome. destruct (env_raises env h c); [left; congruence | auto].
Qed.

#[global] Arguments outcome : simpl never.
#[global] Arguments timeout_exceeded : simpl never.
#[global] Opaque DUMMY_PNG.

Ltac unfold_script H :=
  unfold result, final, run,
    verify_ui,
    verify_manual_button, verify_manual_button_try,
    verify_manual_button_steps, verify_manual_button_except,
    verify_analysis_ui, verify_analysis_ui_try,
    verify_analysis_ui_steps, verify_analysis_ui_except,
    with_sync_playwright, try_except_finally, try_finally, try_except,
    launch, new_context, new_page, goto, screenshot, wait_for_selector, click,
    is_visible, scroll_into_view_if_needed, set_input_files, open_write, close,
    print, call, modify, get_file, raise, initial in H;
  unfold mbind, mret, M_bind, M_ret, bind, ret in H.

(** What a call that returned has returned. *)
Ltac returned_value Ho :=
  cbv beta delta [returns_None] in Ho;
  rewrite ?lookup_insert_eq in Ho;
  cbv beta iota in Ho;
  lazymatch type of Ho with
  | Returned _ = Returned _ => injection Ho as <-
  | match env_appears ?env ?h ?sel with _ => _ end = _ =>
      let d := fresh "d" in
      destruct (env_appears env h sel) as [d|] eqn:?;
      [ destruct (d <=? _) eqn:?; [ injection Ho as <- | discriminate Ho ]
      | discriminate Ho ]
  end.

(** One call of the run in [H] is taken, in both ways it can end. *)
Ltac step H :=
  cbn in H;
  match type of H with
  | context [outcome ?c ?a ?env ?h] =>
      let Ho := fresh "Ho" in
      destruct (outcome c a env h) eqn:Ho;
      [ apply outcome_returned in Ho as [? Ho]; returned_value Ho | ]
  | context [if env_visible ?env ?h ?l then _ else _] =>
      destruct (env_visible env h l) eqn:?
  | context [if is_Exception ?e then _ else _] =>
      destruct (is_Exception e) eqn:?
  end.

Ltac exec H :=
  unfold_script H; repeat step H; try (cbn in H); injection H as <- <-.

(** From [run script env files = (r, w)], the run is taken call by call. *)
Ltac run_cases script env files :=
  let r := fresh "r" in
  let w := fresh "w" in
  let Hrun := fresh "Hrun" in
  unfold result, final;
  destruct (run script env files) as [r w] eqn:Hrun;
  exec Hrun; cbn [fst snd].

(** ** The fixture *)

(** The checker refuses the fixture once a byte of it is changed (here the
    least significant byte of the width), or its end is cut off. *)
Example png_check_refuses_damage :
  Png.valid (<[19%nat := 2]> (map to_Z DUMMY_PNG)) = false
  ∧ Png.valid (take 60 (map to_Z DUMMY_PNG)) = false
  ∧ Png.valid [] = false.
Proof. vm_compute. auto. Qed.

(** The bytes of the literal, one by one: the signature, then IHDR (13 bytes
    of data), IDAT (10 bytes) and IEND (none), each with its length before
    and its CRC after. *)
Example dummy_png_bytes :
  map to_Z DUMMY_PNG
  = [ 137; 80; 78; 71; 13; 10; 26; 10;
      0; 0; 0; 13;  73; 72; 68; 82;
      0; 0; 0; 1;  0; 0; 0; 1;  8; 6; 0; 0; 0;
      31; 21; 196; 137;
      0; 0; 0; 10;  73; 68; 65; 84;
      120; 156; 99; 0; 1; 0; 0; 5; 0; 1;
      13; 10; 45; 180;
      0; 0; 0; 0;  73; 69; 78; 68;
      174; 66; 96; 130 ].
Proof. vm_compute. reflexivity. Qed.

(** The compressed image data of the fixture is one pixel: the filter byte
    and four zero samples. *)
Example dummy_png_pixel :
  Png.zlib_decompress [120; 156; 99; 0; 1; 0; 0; 5; 0; 1] = Some [0; 0; 0; 0; 0].
Proof. vm_compute. reflexivity. Qed.

(** C8. The byte literal written as the upload fixture is a valid PNG file
    (signature, three chunks IHDR, IDAT, IEND with correct CRC-32, image data
    that inflates to the one scanline IHDR announces), it holds nothing
    more than the chunks a PNG file needs, and its IHDR chunk declares width 1
    and height 1 (8-bit RGBA, not interlaced).  It is 67 bytes long. *)
Theorem dummy_png_minimal_valid_1x1 :
  Png.valid (map to_Z DUMMY_PNG) = true
  ∧ Png.minimal (map to_Z DUMMY_PNG) = true
  ∧ Png.check (map to_Z DUMMY_PNG)
    = Some {| Png.width := 1; Png.height := 1; Png.bit_depth := 8;
              Png.colour_type := 6; Png.compression := 0;
              Png.filter_method := 0; Png.interlace := 0 |}
  ∧ length DUMMY_PNG = 67%nat.
Proof. vm_compute. auto. Qed.

(** ** [verify_ui] *)

(** C6. Scenario A.  In a run of [verify_ui] in which every call returns,
    the calls are, in this order: start of Playwright, launch, a context with
    viewport 393 x 852, a page, navigation to the base URL, the home
    screenshot, a click on the element with text "Manual", the editor
    screenshot, close, stop of Playwright.  The run ends without error, and
    the two screenshot files are the files written, in that order. *)
Theorem scenario_A (env : Env) (files : gmap string (list byte)) :
  forallb returned (trace (final verify_ui env files)) = true ->
  result verify_ui env files = Ok tt
  ∧ calls (trace (final verify_ui env files))
    = [ sync_playwright_enter; chromium_launch true;
        browser_new_context 393 852; context_new_page;
        page_goto "http://localhost:3000/";
        page_screenshot "/home/jules/verification/home_v2.png";
        locator_click (get_by_text "Manual");
        page_screenshot "/home/jules/verification/editor_v2.png";
        browser_close; sync_playwright_exit ]
  ∧ files_written (trace (final verify_ui env files))
    = [ "/home/jules/verification/home_v2.png";
        "/home/jules/verification/editor_v2.png" ]
  ∧ stdout (final verify_ui env files)
    = [ "Home screenshot taken"; "Editor screenshot taken" ]
  ∧ ∃ home editor : list byte,
      fs (final verify_ui env files)
      = <["/home/jules/verification/editor_v2.png" := editor]>
          (<["/home/jules/verification/home_v2.png" := home]> files).
Proof.
  run_cases verify_ui env files; cbn; try discriminate.
  intros _. repeat split. eauto.
Qed.

Lemma scenario_A_witness :
  result verify_ui (cooperative []) ∅ = Ok tt
  ∧ calls (trace (final verify_ui (cooperative []) ∅))
    = [ sync_playwright_enter; chromium_launch true;
        browser_new_context 393 852; context_new_page;
        page_goto "http://localhost:3000/";
        page_screenshot "/home/jules/verification/home_v2.png";
        locator_click (get_by_text "Manual");
        page_screenshot "/home/jules/verification/editor_v2.png";
        browser_close; sync_playwright_exit ]
  ∧ files_written (trace (final verify_ui (cooperative []) ∅))
    = [ "/home/jules/verification/home_v2.png";
        "/home/jules/verification/editor_v2.png" ]
  ∧ stdout (final verify_ui (cooperative []) ∅)
    = [ "Home screenshot taken"; "Editor screenshot taken" ]
  ∧ ∃ home editor : list byte,
      fs (final verify_ui (cooperative []) ∅)
      = <["/home/jules/verification/editor_v2.png" := editor]>
          (<["/home/jules/verification/home_v2.png" := home]> ∅).
Proof.
  apply (scenario_A (cooperative []) ∅). vm_compute. reflexivity.
Defined.

(** ** The [try] statement of the two scripts under [verification/] *)

Section TryStatement.

Variables (body : M unit) (path : string) (browser : Browser) (page : Page).
Variables (env : Env) (w : World).

(** [finally]: whatever the guarded part did, [browser.close()] is the
    next call, and the last one. *)
Lemma finally_runs :
  ∃ o : Outcome,
    try_except_finally body (error_screenshot path page) (close browser) env w
    = (after_finally
         (fst (try_except body (error_screenshot path page) env w)) o,
       record browser_close o
         (snd (try_except body (error_screenshot path page) env w))).
Proof.
  unfold try_except_finally, try_finally.
  destruct (try_except body (error_screenshot path page) env w) as [r1 w1].
  unfold close, call, mbind, mret, M_bind, M_ret, bind, ret. cbn.
  exists (outcome browser_close returns_None env (trace w1)).
  by destruct (outcome browser_close returns_None env (trace w1)).
Qed.

(** No exception: the handler is not entered. *)
Lemma not_raised w1 :
  body env w = (Ok tt, w1) ->
  try_except body (error_screenshot path page) env w = (Ok tt, w1).
Proof. unfold try_except. intros ->. reflexivity. Qed.

(** An exception that is not an [Exception]: the handler is not entered
    either, the exception goes on. *)
Lemma not_caught e w1 :
  body env w = (Raise e, w1) -> is_Exception e = false ->
  try_except body (error_screenshot path page) env w = (Raise e, w1).
Proof. unfold try_except. intros -> ->. reflexivity. Qed.

(** An [Exception]: the handler prints one line and makes one screenshot
    call; the result of the guarded part is the result of that call. *)
Lemma caught e w1 :
  body env w = (Raise e, w1) -> is_Exception e = true ->
  ∃ (o : Outcome) (w2 : World),
    try_except body (error_screenshot path page) env w = (res_of o, w2)
    ∧ trace w2 = (trace w1 ++ [Ev (page_screenshot path) o])%list
    ∧ stdout w2 = (stdout w1 ++ [("Error: " ++ str e)%string])%list
    ∧ fs w2 = match o with
              | Returned (VBytes img) => <[path := img]> (fs w1)
              | _ => fs w1
              end
    ∧ (∀ e', o = Raised e' ->
         env_raises env (trace w1) (page_screenshot path) = Some e')
    ∧ (∀ v, o = Returned v ->
         env_raises env (trace w1) (page_screenshot path) = None
         ∧ v = VBytes (env_image env (trace w1))).
Proof.
  unfold try_except. intros -> ->.
  unfold error_screenshot, print, screenshot, modify, call,
    mbind, mret, M_bind, M_ret, bind, ret. cbn.
  match goal with
  | |- context [outcome ?c ?a env ?h] => destruct (outcome c a env h) eqn:Ho
  end.
  - apply outcome_returned in Ho as [Hr Ha]. cbn in Ha. simplify_eq.
    eexists (Returned _), _. cbn. repeat split; try done.
    all: intros; by simplify_eq.
  - apply outcome_raised in Ho as [Hr | [_ Ha]]; [ | discriminate Ha ].
    eexists (Raised _), _. cbn. repeat split; try done.
    all: intros; by simplify_eq.
Qed.

End TryStatement.

Lemma try_of_eq s browser page :
  try_of s browser page
  = try_except_finally (steps_of s page) (error_screenshot (error_path s) page)
      (close browser).
Proof. by destruct s. Qed.

Lemma except_of_eq s page :
  except_of s page = error_screenshot (error_path s) page.
Proof. by destruct s. Qed.

(** The whole path of a caught exception: one line printed, one screenshot
    call, then [browser.close()]. *)
Lemma caught_path s env browser page w e w1 :
  steps_of s page env w = (Raise e, w1) -> is_Exception e = true ->
  ∃ (shot closing : Outcome) (w2 : World),
    try_of s browser page env w
    = (after_finally (res_of shot) closing, record browser_close closing w2)
    ∧ trace w2 = (trace w1 ++ [Ev (page_screenshot (error_path s)) shot])%list
    ∧ stdout w2 = (stdout w1 ++ [("Error: " ++ str e)%string])%list
    ∧ fs w2 = match shot with
              | Returned (VBytes img) => <[error_path s := img]> (fs w1)
              | _ => fs w1
              end
    ∧ (∀ e', shot = Raised e' ->
         env_raises env (trace w1) (page_screenshot (error_path s)) = Some e')
    ∧ (∀ v, shot = Returned v ->
         env_raises env (trace w1) (page_screenshot (error_path s)) = None
         ∧ v = VBytes (env_image env (trace w1))).
Proof.
  intros Hbody Hexc. rewrite try_of_eq.
  destruct (caught _ (error_path s) page env w e w1 Hbody Hexc)
    as (shot & w2 & Hguarded & Hrest).
  destruct (finally_runs (steps_of s page) (error_path s) browser page env w)
    as [closing Hfinal].
  rewrite Hguarded in Hfinal. cbn in Hfinal.
  exists shot, closing, w2. split; [exact Hfinal | exact Hrest].
Qed.

(** A run whose first four calls return executes the [try] statement, with
    the browser and the page these calls made, and then stops Playwright. *)
Lemma run_enters_try s env files :
  setup_returns env ->
  ∃ stopping : Outcome,
    run (guarded_script s) env files
    = (after_finally (fst (try_of s the_browser the_page env (entered files)))
                     stopping,
       record sync_playwright_exit stopping
         (snd (try_of s the_browser the_page env (entered files)))).
Proof.
  intros (H1 & H2 & H3 & H4). cbn in H2, H3, H4.
  destruct s; cbn [guarded_script try_of];
    unfold run, verify_manual_button, verify_analysis_ui, with_sync_playwright,
      try_finally, launch, new_context, new_page, call, outcome, returns_None,
      initial, mbind, mret, M_bind, M_ret, bind, ret;
    cbn; rewrite H1; cbn; rewrite H2; cbn; rewrite H3; cbn; rewrite H4; cbn;
    fold the_browser the_page;
    match goal with
    | |- context [?try_ the_browser the_page env ?w0] =>
        change w0 with (entered files);
        destruct (try_ the_browser the_page env (entered files)) as [r1 w1]
    end;
    cbn [fst snd];
    (destruct (env_raises env (trace w1) sync_playwright_exit) as [e | ];
     [ by exists (Raised e) | by exists (Returned VNone) ]).
Qed.

(** ** The [finally] clause *)

Lemma finally_closes s env browser page w :
  ∃ closing : Outcome,
    try_of s browser page env w
    = (after_finally (fst (try_except (steps_of s page) (except_of s page) env w))
                     closing,
       record browser_close closing
         (snd (try_except (steps_of s page) (except_of s page) env w))).
Proof. rewrite try_of_eq, except_of_eq. apply finally_runs. Qed.

(** C10. In the two scripts with a handler, [browser.close()] of the
    [finally] clause is called on every exit path of the [try] statement: it
    is the call that follows whatever the [try] and [except] blocks did, and
    the last one of the statement.  In particular, when the screenshot of the
    [except] block raises, the calls after the failed step are that
    screenshot and then [browser.close()].  A run of such a script that gets
    to the [try] statement ends with [browser.close()] and the stop of
    Playwright. *)
Theorem close_on_every_exit_path (s : Guarded) (env : Env) (browser : Browser)
    (page : Page) (w : World) :
  (∃ closing : Outcome,
     try_of s browser page env w
     = (after_finally (fst (try_except (steps_of s page) (except_of s page) env w))
                      closing,
        record browser_close closing
          (snd (try_except (steps_of s page) (except_of s page) env w))))
  ∧ (∀ e w1 e',
       steps_of s page env w = (Raise e, w1) ->
       is_Exception e = true ->
       env_raises env (trace w1) (page_screenshot (error_path s)) = Some e' ->
       ∃ closing : Outcome,
         trace (snd (try_of s browser page env w))
         = (trace w1 ++ [ Ev (page_screenshot (error_path s)) (Raised e');
                          Ev browser_close closing ])%list)
  ∧ (∀ files : gmap string (list byte),
       setup_returns env ->
       ∃ closing stopping : Outcome,
         trace (final (guarded_script s) env files)
         = (trace (snd (try_except (steps_of s the_page) (except_of s the_page)
                          env (entered files)))
            ++ [ Ev browser_close closing;
                 Ev sync_playwright_exit stopping ])%list).
Proof.
  split; [ | split ].
  - apply finally_closes.
  - intros e w1 e' Hbody Hexc Hshot.
    destruct (caught_path s env browser page w e w1 Hbody Hexc)
      as (shot & closing & w2 & -> & Htr & _ & _ & Hr & Hv).
    exists closing. cbn. rewrite Htr, <- app_assoc. cbn.
    destruct shot as [v | e''].
    + destruct (Hv v eq_refl) as [Hnone _]. congruence.
    + specialize (Hr e'' eq_refl). by simplify_eq.
  - intros files Hsetup. unfold final.
    destruct (run_enters_try s env files Hsetup) as [stopping ->].
    destruct (finally_closes s env the_browser the_page (entered files))
      as [closing ->].
    exists closing, stopping. cbn. by rewrite <- app_assoc.
Qed.

Lemma close_on_every_exit_path_witness :
  (∃ closing : Outcome,
     trace (snd (try_of ManualButton the_browser the_page page_lost (initial ∅)))
     = [ Ev (page_goto "http://localhost:3000") (Raised refused);
         Ev (page_screenshot "verification/error.png") (Raised crashed);
         Ev browser_close closing ])
  ∧ (∃ closing stopping : Outcome,
       trace (final verify_manual_button page_lost ∅)
       = [ Ev sync_playwright_enter (Returned VNone);
           Ev (chromium_launch true) (Returned VNone);
           Ev (browser_new_context 393 852) (Returned VNone);
           Ev context_new_page (Returned VNone);
           Ev (page_goto "http://localhost:3000") (Raised refused);
           Ev (page_screenshot "verification/error.png") (Raised crashed);
           Ev browser_close closing;
           Ev sync_playwright_exit stopping ]).
Proof.
  split.
  - apply (proj1 (proj2 (close_on_every_exit_path ManualButton page_lost
                           the_browser the_page (initial ∅)))
             refused
             (snd (steps_of ManualButton the_page page_lost (initial ∅)))
             crashed);
      vm_compute; reflexivity.
  - apply (proj2 (proj2 (close_on_every_exit_path ManualButton page_lost
                           the_browser the_page (initial ∅))) ∅).
    vm_compute. auto.
Defined.

(** The same path in a whole run: after [browser.close()], Playwright is
    stopped. *)
Lemma caught_run s env files e w1 :
  setup_returns env ->
  steps_of s the_page env (entered files) = (Raise e, w1) ->
  is_Exception e = true ->
  ∃ (shot closing stopping : Outcome) (w2 : World),
    run (guarded_script s) env files
    = (after_finally (after_finally (res_of shot) closing) stopping,
       record sync_playwright_exit stopping (record browser_close closing w2))
    ∧ trace w2 = (trace w1 ++ [Ev (page_screenshot (error_path s)) shot])%list
    ∧ stdout w2 = (stdout w1 ++ [("Error: " ++ str e)%string])%list.
Proof.
  intros Hsetup Hbody Hexc.
  destruct (run_enters_try s env files Hsetup) as [stopping ->].
  destruct (caught_path s env the_browser the_page _ e w1 Hbody Hexc)
    as (shot & closing & w2 & -> & Htr & Hout & _).
  by exists shot, closing, stopping, w2.
Qed.

(** ** The [except] clause *)

(** C7. When a failure of a step is caught by the handler of a script, the
    [try] statement prints exactly one more line: the prefix ["Error: "]
    followed by the message of the failure.  This holds in whatever state the
    statement is run, and so in a run of the script, where that line is the
    last one printed. *)
Theorem error_line_printed (s : Guarded) (env : Env) (e : exn) (w1 : World) :
  is_Exception e = true ->
  (∀ (browser : Browser) (page : Page) (w : World),
     steps_of s page env w = (Raise e, w1) ->
     stdout (snd (try_of s browser page env w))
     = (stdout w1 ++ [("Error: " ++ str e)%string])%list)
  ∧ (∀ files : gmap string (list byte),
       setup_returns env ->
       steps_of s the_page env (entered files) = (Raise e, w1) ->
       stdout (final (guarded_script s) env files)
       = (stdout w1 ++ [("Error: " ++ str e)%string])%list).
Proof.
  intros Hexc. split.
  - intros browser page w Hbody.
    destruct (caught_path s env browser page w e w1 Hbody Hexc)
      as (shot & closing & w2 & -> & _ & Hout & _).
    exact Hout.
  - intros files Hsetup Hbody. unfold final.
    destruct (caught_run s env files e w1 Hsetup Hbody Hexc)
      as (shot & closing & stopping & w2 & -> & _ & Hout).
    exact Hout.
Qed.

Lemma error_line_printed_witness :
  stdout (final verify_manual_button server_down ∅)
  = [ "Navigating to home...";
      "Error: net::ERR_CONNECTION_REFUSED at http://localhost:3000" ].
Proof.
  apply (proj2 (error_line_printed ManualButton server_down refused
                  (snd (steps_of ManualButton the_page server_down (entered ∅)))
                  eq_refl) ∅).
  - vm_compute. auto.
  - vm_compute. reflexivity.
Defined.

(** C2, as the claim has it, fails: the navigation of [verify_manual_button]
    fails and is caught; the screenshot of the handler fails in turn, and
    that second exception leaves the [try] statement and the script. *)
Lemma diagnostic_screenshot_failure_escapes :
  fst (steps_of ManualButton the_page page_lost (entered ∅)) = Raise refused
  ∧ is_Exception refused = true
  ∧ fst (try_of ManualButton the_browser the_page page_lost (entered ∅))
    = Raise crashed
  ∧ result verify_manual_button page_lost ∅ = Raise crashed
  ∧ result verify_analysis_ui page_lost ∅ = Raise crashed.
Proof. vm_compute. auto. Qed.

(** C2, amended. When a failure of a step is caught by the handler, what
    follows is one diagnostic screenshot call and then [browser.close()] (and,
    in a run of the script, the stop of Playwright).  The screenshot is not
    guarded: when it raises, its exception leaves the [try] statement and the
    script, unless one of the calls after it raises too, in which case the
    exception of the last call that raised does.  The statement, and the
    run, end without error exactly when all these calls return. *)
Theorem diagnostic_screenshot_unguarded (s : Guarded) (env : Env) (e : exn)
    (w1 : World) :
  is_Exception e = true ->
  (∀ (browser : Browser) (page : Page) (w : World),
     steps_of s page env w = (Raise e, w1) ->
     ∃ shot closing : Outcome,
       trace (snd (try_of s browser page env w))
       = (trace w1 ++ [ Ev (page_screenshot (error_path s)) shot;
                        Ev browser_close closing ])%list
       ∧ fst (try_of s browser page env w)
         = match closing, shot with
           | Raised e2, _ => Raise e2
           | Returned _, Raised e1 => Raise e1
           | Returned _, Returned _ => Ok tt
           end)
  ∧ (∀ files : gmap string (list byte),
       setup_returns env ->
       steps_of s the_page env (entered files) = (Raise e, w1) ->
       ∃ shot closing stopping : Outcome,
         trace (final (guarded_script s) env files)
         = (trace w1 ++ [ Ev (page_screenshot (error_path s)) shot;
                          Ev browser_close closing;
                          Ev sync_playwright_exit stopping ])%list
         ∧ result (guarded_script s) env files
           = match stopping, closing, shot with
             | Raised e3, _, _ => Raise e3
             | Returned _, Raised e2, _ => Raise e2
             | Returned _, Returned _, Raised e1 => Raise e1
             | Returned _, Returned _, Returned _ => Ok tt
             end).
Proof.
  intros Hexc. split.
  - intros browser page w Hbody.
    destruct (caught_path s env browser page w e w1 Hbody Hexc)
      as (shot & closing & w2 & -> & Htr & _).
    exists shot, closing. cbn. rewrite Htr, <- app_assoc. split; [done | ].
    by destruct closing, shot.
  - intros files Hsetup Hbody. unfold result, final.
    destruct (caught_run s env files e w1 Hsetup Hbody Hexc)
      as (shot & closing & stopping & w2 & -> & Htr & _).
    exists shot, closing, stopping. cbn. rewrite Htr, <- !app_assoc.
    split; [done | ]. by destruct stopping, closing, shot.
Qed.

Lemma diagnostic_screenshot_unguarded_witness :
  ∃ shot closing stopping : Outcome,
    trace (final verify_analysis_ui page_lost ∅)
    = [ Ev sync_playwright_enter (Returned VNone);
        Ev (chromium_launch true) (Returned VNone);
        Ev (browser_new_context 393 852) (Returned VNone);
        Ev context_new_page (Returned VNone);
        Ev (page_goto "http://localhost:3000") (Raised refused);
        Ev (page_screenshot "verification/error_analysis.png") shot;
        Ev browser_close closing;
        Ev sync_playwright_exit stopping ]
    ∧ result verify_analysis_ui page_lost ∅
      = match stopping, closing, shot with
        | Raised e3, _, _ => Raise e3
        | Returned _, Raised e2, _ => Raise e2
        | Returned _, Returned _, Raised e1 => Raise e1
        | Returned _, Returned _, Returned _ => Ok tt
        end.
Proof.
  apply (proj2 (diagnostic_screenshot_unguarded AnalysisUI page_lost refused
                  (snd (steps_of AnalysisUI the_page page_lost (entered ∅)))
                  eq_refl) ∅).
  - vm_compute. auto.
  - vm_compute. reflexivity.
Defined.

(** ** Error handling, script by script *)

(** C1, as the claim has it, fails.  [verify_ui] has no [try] statement:
    when its navigation fails, the exception leaves the script, no screenshot
    is taken, [browser.close()] is not called, and nothing is written; only
    the [with] block stops Playwright.  And in a script that has the
    statement, an exception that is not an [Exception] (an interrupt) passes
    the handler: no screenshot either, though [browser.close()] is called;
    and when the screenshot of the handler fails itself, no error screenshot
    is on disk at the end. *)
Lemma verify_ui_has_no_handler :
  result verify_ui server_down ∅ = Raise refused
  ∧ calls (trace (final verify_ui server_down ∅))
    = [ sync_playwright_enter; chromium_launch true;
        browser_new_context 393 852; context_new_page;
        page_goto "http://localhost:3000/"; sync_playwright_exit ]
  ∧ fs (final verify_ui server_down ∅) = ∅
  ∧ result verify_manual_button interrupted ∅ = Raise interrupt
  ∧ calls (trace (final verify_manual_button interrupted ∅))
    = [ sync_playwright_enter; chromium_launch true;
        browser_new_context 393 852; context_new_page;
        page_goto "http://localhost:3000"; browser_close;
        sync_playwright_exit ]
  ∧ fs (final verify_manual_button page_lost ∅) = ∅.
Proof. vm_compute. auto 10. Qed.

Lemma last_call_recorded c o w :
  last (calls (trace (record c o w))) = Some c.
Proof.
  unfold calls, record. cbn [trace]. rewrite map_app. cbn [map ev_call].
  apply last_snoc.
Qed.

(** C1, amended. In [verify_manual_button] and [verify_analysis_ui] the steps
    are wrapped in [try]/[except Exception]/[finally]: when a step raises an
    exception that is an [Exception], the next call is a screenshot to the
    error path, whose image is on disk at the end when the call returns; and
    on every exit path the last call of the statement is [browser.close()].
    In each of the three scripts, Playwright, once started, is stopped on
    every exit path by the [with] block. *)
Theorem error_handling_of_the_scripts :
  (∀ (s : Guarded) (env : Env) (browser : Browser) (page : Page) (w : World),
     try_of s browser page
     = try_except_finally (steps_of s page) (except_of s page) (close browser)
     ∧ last (calls (trace (snd (try_of s browser page env w))))
       = Some browser_close
     ∧ ∀ e w1,
         steps_of s page env w = (Raise e, w1) ->
         is_Exception e = true ->
         ∃ shot closing : Outcome,
           trace (snd (try_of s browser page env w))
           = (trace w1 ++ [ Ev (page_screenshot (error_path s)) shot;
                            Ev browser_close closing ])%list
           ∧ (∀ v, shot = Returned v ->
                ∃ img, v = VBytes img
                  ∧ fs (snd (try_of s browser page env w)) !! error_path s
                    = Some img))
  ∧ (∀ (sc : Script) (env : Env) (files : gmap string (list byte)),
       (∃ e, trace (final (script_of sc) env files)
             = [Ev sync_playwright_enter (Raised e)])
       ∨ last (calls (trace (final (script_of sc) env files)))
         = Some sync_playwright_exit).
Proof.
  split.
  - intros s env browser page w. split; [by destruct s | split].
    + destruct (finally_closes s env browser page w)
        as [closing ->].
      apply last_call_recorded.
    + intros e w1 Hbody Hexc.
      destruct (caught_path s env browser page w e w1 Hbody Hexc)
        as (shot & closing & w2 & -> & Htr & _ & Hfs & _ & Hv).
      exists shot, closing. cbn. rewrite Htr, <- app_assoc. split; [done | ].
      intros v ->. destruct (Hv _ eq_refl) as [_ ->].
      eexists. split; [done | ]. rewrite Hfs. apply lookup_insert_eq.
  - intros sc env files.
    destruct sc; cbn [script_of].
    + run_cases verify_ui env files; cbn; eauto.
    + run_cases verify_manual_button env files; cbn; eauto.
    + run_cases verify_analysis_ui env files; cbn; eauto.
Qed.

Lemma error_handling_of_the_scripts_witness :
  ∃ shot closing : Outcome,
    trace (snd (try_of ManualButton the_browser the_page server_down (initial ∅)))
    = [ Ev (page_goto "http://localhost:3000") (Raised refused);
        Ev (page_screenshot "verification/error.png") shot;
        Ev browser_close closing ]
    ∧ (∀ v, shot = Returned v ->
         ∃ img, v = VBytes img
           ∧ fs (snd (try_of ManualButton the_browser the_page server_down
                        (initial ∅)))
               !! "verification/error.png" = Some img).
Proof.
  apply (proj2 (proj2 (proj1 error_handling_of_the_scripts ManualButton
                         server_down the_browser the_page (initial ∅)))
           refused
           (snd (steps_of ManualButton the_page server_down (initial ∅))));
    vm_compute; reflexivity.
Defined.

(** ** [verify_manual_button]: the button that is not visible *)

Ltac in_trace :=
  cbn; solve [ repeat first [ left; reflexivity | right ] ].

(** C3. In a run of [verify_manual_button] in which [is_visible()] on the
    "Manual" button returns false, the script prints the message and nothing
    after it, takes no screenshot (neither the regular nor the error one: the
    handler is not entered) and leaves the files as they were; the calls that
    remain are [browser.close()] and the stop of Playwright.  The run ends
    without error, with the same [None] a successful run returns, unless one
    of these two closing calls raises. *)
Theorem manual_button_not_visible (env : Env) (files : gmap string (list byte)) :
  existsb found_hidden (trace (final verify_manual_button env files)) = true ->
  stdout (final verify_manual_button env files)
  = [ "Navigating to home..."; "Waiting for 'Filament ID'...";
      "Checking visibility..."; "Manual button NOT visible!" ]
  ∧ calls (trace (final verify_manual_button env files))
    = [ sync_playwright_enter; chromium_launch true;
        browser_new_context 393 852; context_new_page;
        page_goto "http://localhost:3000";
        page_wait_for_selector "text=Filament ID" None;
        locator_is_visible (first (locator "text=Manual"));
        browser_close; sync_playwright_exit ]
  ∧ existsb is_screenshot (calls (trace (final verify_manual_button env files)))
    = false
  ∧ fs (final verify_manual_button env files) = files
  ∧ (forallb returned (trace (final verify_manual_button env files)) = true ->
     result verify_manual_button env files = Ok tt)
  ∧ (∀ e, result verify_manual_button env files = Raise e ->
       In (Ev browser_close (Raised e))
          (trace (final verify_manual_button env files))
       ∨ In (Ev sync_playwright_exit (Raised e))
            (trace (final verify_manual_button env files))).
Proof.
  run_cases verify_manual_button env files; cbn; try discriminate.
  all: intros _; repeat split; try done.
  all: intros ? [= <-]; first [ left; in_trace | right; in_trace ].
Qed.

Lemma manual_button_not_visible_witness :
  stdout (final verify_manual_button button_hidden ∅)
  = [ "Navigating to home..."; "Waiting for 'Filament ID'...";
      "Checking visibility..."; "Manual button NOT visible!" ]
  ∧ existsb is_screenshot
      (calls (trace (final verify_manual_button button_hidden ∅))) = false
  ∧ fs (final verify_manual_button button_hidden ∅) = ∅
  ∧ result verify_manual_button button_hidden ∅ = Ok tt.
Proof.
  assert (Hhidden : existsb found_hidden
                      (trace (final verify_manual_button button_hidden ∅)) = true)
    by (vm_compute; reflexivity).
  destruct (manual_button_not_visible button_hidden ∅ Hhidden)
    as (Hout & _ & Hshot & Hfs & Hok & _).
  refine (conj Hout (conj Hshot (conj Hfs (Hok _)))).
  vm_compute. reflexivity.
Defined.

(** ** [verify_analysis_ui]: the fixture file *)

Ltac fs_lookup :=
  repeat first [ rewrite lookup_insert_eq
               | rewrite lookup_insert_ne by discriminate ];
  cbn [default app].

(** C4, as the claim has it, fails: a file that is at the path before the run
    does not keep its contents. *)
Lemma existing_fixture_is_overwritten :
  ({["verification/dummy.png" := stale]} : gmap string (list byte))
    !! "verification/dummy.png" = Some stale
  ∧ fs (final verify_analysis_ui (cooperative [])
          {["verification/dummy.png" := stale]})
      !! "verification/dummy.png" = Some DUMMY_PNG
  ∧ stale ≠ DUMMY_PNG.
Proof. vm_compute. repeat split; discriminate. Qed.

(** C4, amended. The script does not look whether the fixture file exists.
    A run that gets to open the path does so in mode ["wb"], which creates
    the file or empties the one that is there, and then writes the constant
    bytes: once the write has returned the file holds these bytes, whatever
    it held before (if the write raises, the file is left empty).  A run
    that does not get to open the path leaves the file as it was. *)
Theorem fixture_written_unconditionally (env : Env)
    (files : gmap string (list byte)) :
  (existsb wrote_fixture (trace (final verify_analysis_ui env files)) = true ->
   fs (final verify_analysis_ui env files) !! "verification/dummy.png"
   = Some DUMMY_PNG)
  ∧ (existsb opened_fixture (trace (final verify_analysis_ui env files)) = true ->
     existsb wrote_fixture (trace (final verify_analysis_ui env files)) = false ->
     fs (final verify_analysis_ui env files) !! "verification/dummy.png"
     = Some [])
  ∧ (existsb opened_fixture (trace (final verify_analysis_ui env files)) = false ->
     fs (final verify_analysis_ui env files) !! "verification/dummy.png"
     = files !! "verification/dummy.png").
Proof.
  run_cases verify_analysis_ui env files; cbn;
    (split; [ | split ]); intros; try discriminate; by fs_lookup.
Qed.

Lemma fixture_written_unconditionally_witness :
  fs (final verify_analysis_ui (cooperative [])
        {["verification/dummy.png" := stale]})
    !! "verification/dummy.png" = Some DUMMY_PNG.
Proof.
  apply (proj1 (fixture_written_unconditionally (cooperative [])
                  {["verification/dummy.png" := stale]})).
  vm_compute. reflexivity.
Defined.

(** C9. In [verify_analysis_ui] the fixture file is opened and written before
    the file input is used and before the text is awaited.  So in every run
    that fails at the upload, at the wait for the text or at the screenshot
    after it, the file [verification/dummy.png] is on disk at the end of the
    run with the constant bytes; the files are then not what they were
    before the run, unless that very file was already there. *)
Theorem fixture_outlives_failure (env : Env) (files : gmap string (list byte)) :
  existsb (failed_at at_or_after_upload)
          (trace (final verify_analysis_ui env files)) = true ->
  take 8 (calls (trace (final verify_analysis_ui env files)))
  = [ sync_playwright_enter; chromium_launch true;
      browser_new_context 393 852; context_new_page;
      page_goto "http://localhost:3000";
      open_wb "verification/dummy.png";
      file_write "verification/dummy.png" DUMMY_PNG;
      locator_set_input_files
        (locator ("input[type=" ++ dquote ++ "file" ++ dquote ++ "]"))
        "verification/dummy.png" ]
  ∧ fs (final verify_analysis_ui env files) !! "verification/dummy.png"
    = Some DUMMY_PNG
  ∧ (files !! "verification/dummy.png" ≠ Some DUMMY_PNG ->
     fs (final verify_analysis_ui env files) ≠ files).
Proof.
  run_cases verify_analysis_ui env files; cbn; try discriminate.
  all: intros _; split; [ reflexivity | ].
  all: match goal with
       | |- ?m !! ?k = _ ∧ _ =>
           assert (Hfile : m !! k = Some DUMMY_PNG) by (by fs_lookup);
           split; [ exact Hfile | ];
           intros Hbefore Hsame; rewrite Hsame in Hfile; contradiction
       end.
Qed.

Lemma fixture_outlives_failure_witness :
  fs (final verify_analysis_ui no_analysis_view ∅) !! "verification/dummy.png"
  = Some DUMMY_PNG
  ∧ fs (final verify_analysis_ui no_analysis_view ∅) ≠ ∅.
Proof.
  assert (Hfails : existsb (failed_at at_or_after_upload)
                     (trace (final verify_analysis_ui no_analysis_view ∅)) = true)
    by (vm_compute; reflexivity).
  destruct (fixture_outlives_failure no_analysis_view ∅ Hfails)
    as (_ & Hfile & Hchanged).
  refine (conj Hfile (Hchanged _)).
  vm_compute. discriminate.
Defined.

(** ** Waiting for a text *)

Lemma each_event_split P before tr :
  each_event P before tr ->
  ∀ pre ev post, tr = (pre ++ ev :: post)%list -> P (before ++ pre)%list ev.
Proof.
  revert before. induction tr as [ | ev' tr IH]; intros before Hall pre ev post Heq.
  - by destruct pre.
  - destruct Hall as [Hev Hrest]. destruct pre as [ | ev'' pre]; simplify_eq/=.
    + by rewrite app_nil_r.
    + specialize (IH _ Hrest pre ev post eq_refl).
      by rewrite <- app_assoc in IH.
Qed.

Ltac conjuncts :=
  repeat match goal with
         | |- _ ∧ _ => split
         | |- True => exact I
         end.

Lemma wait_returned env before sel t d :
  env_raises env before (page_wait_for_selector sel t) = None ->
  env_appears env before sel = Some d ->
  (d <=? effective_timeout t) = true ->
  wait_bounded env before sel t (Returned VNone).
Proof.
  intros Hnone Happ Hle%Z.leb_le. split; [ | split; [ | split ] ].
  - intros _ _. eauto.
  - intros Hlate. specialize (Hlate d Happ). lia.
  - reflexivity.
  - intros e He. congruence.
Qed.

Lemma wait_raised env before sel t e :
  outcome (page_wait_for_selector sel t)
    (fun env h =>
       match env_appears env h sel with
       | Some d =>
           if d <=? effective_timeout t then Returned VNone
           else Raised (timeout_exceeded (effective_timeout t))
       | None => Raised (timeout_exceeded (effective_timeout t))
       end) env before = Raised e ->
  wait_bounded env before sel t (Raised e).
Proof.
  intros Ho. apply outcome_raised in Ho as [Hsome | [Hnone Ha]].
  - split; [ discriminate | split; [ | split ] ].
    + intros _. exists e. split; [ reflexivity | congruence ].
    + intros d _ _ Hnone. congruence.
    + intros e' He'. congruence.
  - cbv beta in Ha. split; [ discriminate | split; [ | split ] ].
    + intros _. exists e. split; [ reflexivity | ]. intros _.
      destruct (env_appears env before sel) as [d | ];
        [ destruct (d <=? effective_timeout t) | ]; by simplify_eq.
    + intros d Happ Hle%Z.leb_le _. rewrite Happ, Hle in Ha. discriminate Ha.
    + intros e' He'. congruence.
Qed.

Lemma waits_of_script sc env files :
  each_event (wait_event_ok sc env) [] (trace (final (script_of sc) env files)).
Proof.
  destruct sc; cbn [script_of].
  - run_cases verify_ui env files; cbn; conjuncts.
  - run_cases verify_manual_button env files; cbn; conjuncts.
    all: try (left; by conjuncts).
    all: try (eapply (wait_returned _ _ _ None); eassumption).
    all: try (by apply (wait_raised _ _ _ None)).
  - run_cases verify_analysis_ui env files; cbn; conjuncts.
    all: try (right; by conjuncts).
    all: try (eapply (wait_returned _ _ _ (Some 5000)); eassumption).
    all: try (by apply (wait_raised _ _ _ (Some 5000))).
Qed.

(** C5. Every wait for a text that a script makes is one of two: the wait
    of [verify_manual_button] for "Filament ID", with no timeout given and so
    bound by the default of 30 s, and the wait of [verify_analysis_ui] for
    "NEURAL SCAN", the only one with a timeout of its own, of 5 s
    ([verify_ui] waits for no text).  Each wait is bound by its timeout and
    by nothing less: it returns only when the text showed within the
    timeout; it does return when the text shows within the timeout, unless
    the outside makes the call fail; and when the text does not show within
    the timeout the wait raises, the timeout error unless the outside made
    the call fail in another way.  Both waits are made in runs in which
    nothing fails. *)
Theorem wait_for_text_timeouts :
  (∀ (sc : Script) (env : Env) (files : gmap string (list byte))
     (pre : list Event) (sel : string) (t : option Z) (o : Outcome)
     (post : list Event),
     trace (final (script_of sc) env files)
     = (pre ++ Ev (page_wait_for_selector sel t) o :: post)%list ->
     wait_as_written sc sel t ∧ wait_bounded env pre sel t o)
  ∧ In (Ev (page_wait_for_selector "text=Filament ID" None) (Returned VNone))
       (trace (final verify_manual_button (cooperative []) ∅))
  ∧ In (Ev (page_wait_for_selector "text=NEURAL SCAN" (Some 5000))
           (Returned VNone))
       (trace (final verify_analysis_ui (cooperative []) ∅)).
Proof.
  split; [ | split ].
  - intros sc env files pre sel t o post Htrace.
    apply (each_event_split _ _ _ (waits_of_script sc env files)
             pre _ post Htrace).
  - vm_compute. in_trace.
  - vm_compute. in_trace.
Qed.

Lemma wait_for_text_timeouts_witness :
  (wait_as_written VerifyManualButton "text=Filament ID" None
   ∧ ∃ d, env_appears slow_page
            (take 5 (trace (final verify_manual_button slow_page ∅)))
            "text=Filament ID" = Some d
        ∧ d <= 30000)
  ∧ (wait_as_written VerifyAnalysisUI "text=NEURAL SCAN" (Some 5000)
     ∧ ∃ e, Raised (timeout_exceeded 5000) = Raised e
         ∧ e = Exn TimeoutError "Timeout 5000ms exceeded.").
Proof.
  split.
  - destruct (proj1 wait_for_text_timeouts VerifyManualButton slow_page ∅
                (take 5 (trace (final verify_manual_button slow_page ∅)))
                "text=Filament ID" None (Returned VNone)
                (drop 6 (trace (final verify_manual_button slow_page ∅))))
      as [Hwritten [Hreturned _]].
    + vm_compute. reflexivity.
    + split; [ exact Hwritten | ]. exact (Hreturned VNone eq_refl).
  - destruct (proj1 wait_for_text_timeouts VerifyAnalysisUI slow_page ∅
                (take 8 (trace (final verify_analysis_ui slow_page ∅)))
                "text=NEURAL SCAN" (Some 5000)
                (Raised (timeout_exceeded 5000))
                (drop 9 (trace (final verify_analysis_ui slow_page ∅))))
      as [Hwritten [_ [Hbound _]]].
    + vm_compute. reflexivity.
    + split; [ exact Hwritten | ].
      destruct Hbound as (e & He & Htimeout).
      * intros d [= <-]. reflexivity.
      * exists e. split; [ exact He | ].
        rewrite Htimeout; vm_compute; reflexivity.
Defined.

(** A text that shows after ten seconds is in time for the wait of
    [verify_manual_button] and too late for the wait of
    [verify_analysis_ui]. *)
Example ten_seconds_late_or_not :
  stdout (final verify_manual_button slow_page ∅)
  = [ "Navigating to home..."; "Waiting for 'Filament ID'...";
      "Checking visibility..."; "Manual button visible.";
      "Taking screenshot...";
      "Screenshot saved to verification/manual_button_check.png" ]
  ∧ stdout (final verify_analysis_ui slow_page ∅)
    = [ "Navigating to home..."; "Uploading dummy image...";
        "Waiting for Analysis View..."; "Error: Timeout 5000ms exceeded." ].
Proof. vm_compute. auto. Qed.

(** The lines [verify_analysis_ui] prints when the text never shows. *)
Example analysis_view_timeout_output :
  stdout (final verify_analysis_ui no_analysis_view ∅)
  = [ "Navigating to home..."; "Uploading dummy image...";
      "Waiting for Analysis View..."; "Error: Timeout 5000ms exceeded." ]
  ∧ result verify_analysis_ui no_analysis_view ∅ = Ok tt.
Proof. vm_compute. auto. Qed.

(** ** The runs in which nothing fails *)

(** X1. In a run of [verify_manual_button] in which every call returns and
    the button is visible, the calls are, in this order: start of Playwright,
    launch, a context with viewport 393 x 852, a page, navigation, the wait
    for "Filament ID", the visibility check, the scroll into view, the
    screenshot, close, stop of Playwright.  The run ends without error, the
    six progress lines are printed, and the screenshot is the one file
    written. *)
Theorem manual_button_visible_run (env : Env) (files : gmap string (list byte)) :
  forallb returned (trace (final verify_manual_button env files)) = true ->
  existsb found_hidden (trace (final verify_manual_button env files)) = false ->
  result verify_manual_button env files = Ok tt
  ∧ calls (trace (final verify_manual_button env files))
    = [ sync_playwright_enter; chromium_launch true;
        browser_new_context 393 852; context_new_page;
        page_goto "http://localhost:3000";
        page_wait_for_selector "text=Filament ID" None;
        locator_is_visible (first (locator "text=Manual"));
        locator_scroll_into_view_if_needed (first (locator "text=Manual"));
        page_screenshot "verification/manual_button_check.png";
        browser_close; sync_playwright_exit ]
  ∧ files_written (trace (final verify_manual_button env files))
    = [ "verification/manual_button_check.png" ]
  ∧ stdout (final verify_manual_button env files)
    = [ "Navigating to home..."; "Waiting for 'Filament ID'...";
        "Checking visibility..."; "Manual button visible.";
        "Taking screenshot...";
        "Screenshot saved to verification/manual_button_check.png" ]
  ∧ ∃ img : list byte,
      fs (final verify_manual_button env files)
      = <["verification/manual_button_check.png" := img]> files.
Proof.
  run_cases verify_manual_button env files; cbn; try discriminate.
  intros _ _. conjuncts; try reflexivity. eauto.
Qed.

Lemma manual_button_visible_run_witness :
  result verify_manual_button (cooperative []) ∅ = Ok tt
  ∧ files_written (trace (final verify_manual_button (cooperative []) ∅))
    = [ "verification/manual_button_check.png" ].
Proof.
  destruct (manual_button_visible_run (cooperative []) ∅)
    as (Hres & _ & Hfiles & _).
  - vm_compute. reflexivity.
  - vm_compute. reflexivity.
  - exact (conj Hres Hfiles).
Defined.

(** X2. In a run of [verify_analysis_ui] in which every call returns, the
    calls are, in this order: start of Playwright, launch, a context with
    viewport 393 x 852, a page, navigation, the opening and the writing of
    the fixture, the upload, the wait for "NEURAL SCAN", the screenshot,
    close, stop of Playwright.  The run ends without error, the five
    progress lines are printed, and the files written are the fixture, with
    the constant bytes, and the screenshot. *)
Theorem analysis_ui_full_run (env : Env) (files : gmap string (list byte)) :
  forallb returned (trace (final verify_analysis_ui env files)) = true ->
  result verify_analysis_ui env files = Ok tt
  ∧ calls (trace (final verify_analysis_ui env files))
    = [ sync_playwright_enter; chromium_launch true;
        browser_new_context 393 852; context_new_page;
        page_goto "http://localhost:3000";
        open_wb "verification/dummy.png";
        file_write "verification/dummy.png" DUMMY_PNG;
        locator_set_input_files
          (locator ("input[type=" ++ dquote ++ "file" ++ dquote ++ "]"))
          "verification/dummy.png";
        page_wait_for_selector "text=NEURAL SCAN" (Some 5000);
        page_screenshot "verification/analysis_ui_check.png";
        browser_close; sync_playwright_exit ]
  ∧ files_written (trace (final verify_analysis_ui env files))
    = [ "verification/dummy.png"; "verification/analysis_ui_check.png" ]
  ∧ stdout (final verify_analysis_ui env files)
    = [ "Navigating to home..."; "Uploading dummy image...";
        "Waiting for Analysis View..."; "Taking screenshot...";
        "Screenshot saved to verification/analysis_ui_check.png" ]
  ∧ ∃ img : list byte,
      fs (final verify_analysis_ui env files)
      = <["verification/analysis_ui_check.png" := img]>
          (<["verification/dummy.png" := DUMMY_PNG]> files).
Proof.
  run_cases verify_analysis_ui env files; cbn; try discriminate.
  intros _. conjuncts; try reflexivity.
  eexists. rewrite lookup_insert_eq. cbn. by rewrite insert_insert_eq.
Qed.

Lemma analysis_ui_full_run_witness :
  result verify_analysis_ui (cooperative []) ∅ = Ok tt
  ∧ files_written (trace (final verify_analysis_ui (cooperative []) ∅))
    = [ "verification/dummy.png"; "verification/analysis_ui_check.png" ].
Proof.
  destruct (analysis_ui_full_run (cooperative []) ∅)
    as (Hres & _ & Hfiles & _).
  - vm_compute. reflexivity.
  - exact (conj Hres Hfiles).
Defined.

(** ** What a run leaves alone *)

Ltac other_path Hp :=
  repeat (rewrite lookup_insert_ne; [ | intros <-; apply Hp; cbn; tauto ]);
  reflexivity.

(** X3. A run changes no file but those the script names: whatever the
    outside does, every path other than the output paths of the script has
    at the end of the run the contents it had before it (or is still
    absent). *)
Theorem only_output_paths_change (sc : Script) (env : Env)
    (files : gmap string (list byte)) (p : string) :
  ¬ In p (output_paths sc) ->
  fs (final (script_of sc) env files) !! p = files !! p.
Proof.
  destruct sc; cbn [script_of output_paths].
  - run_cases verify_ui env files; cbn; intros Hp; other_path Hp.
  - run_cases verify_manual_button env files; cbn; intros Hp; other_path Hp.
  - run_cases verify_analysis_ui env files; cbn; intros Hp; other_path Hp.
Qed.

Lemma only_output_paths_change_witness :
  fs (final verify_analysis_ui (cooperative []) {["notes.txt" := stale]})
    !! "notes.txt" = Some stale.
Proof.
  rewrite (only_output_paths_change VerifyAnalysisUI (cooperative [])
             {["notes.txt" := stale]} "notes.txt").
  - vm_compute. reflexivity.
  - cbn. intuition discriminate.
Defined.

Ltac no_repeat := apply (bool_decide_unpack _); vm_compute; exact I.

(** X4. Nothing is tried twice: in a run of any of the scripts no call is
    made a second time with the same arguments, whatever fails; a run makes
    at most 10 ([verify_ui]), 12 ([verify_manual_button]) or 13
    ([verify_analysis_ui]) calls. *)
Theorem no_call_twice (sc : Script) (env : Env) (files : gmap string (list byte)) :
  NoDup (calls (trace (final (script_of sc) env files)))
  ∧ (length (trace (final (script_of sc) env files)) <= most_calls sc)%nat.
Proof.
  destruct sc; cbn [script_of most_calls].
  - run_cases verify_ui env files; cbn; (split; [ no_repeat | lia ]).
  - run_cases verify_manual_button env files; cbn; (split; [ no_repeat | lia ]).
  - run_cases verify_analysis_ui env files; cbn; (split; [ no_repeat | lia ]).
Qed.

(** ** Screenshots *)

(** X5. A run of [verify_manual_button] or [verify_analysis_ui] takes at
    most one screenshot: none, or the regular one, or the error one, never
    both. *)
Theorem one_screenshot_at_most (s : Guarded) (env : Env)
    (files : gmap string (list byte)) :
  screenshots_taken (trace (final (guarded_script s) env files)) = []
  ∨ screenshots_taken (trace (final (guarded_script s) env files))
    = [regular_path s]
  ∨ screenshots_taken (trace (final (guarded_script s) env files))
    = [error_path s].
Proof.
  destruct s; cbn [guarded_script regular_path error_path].
  - run_cases verify_manual_button env files; cbn; auto.
  - run_cases verify_analysis_ui env files; cbn; auto.
Qed.

Ltac screenshot_in_trace H :=
  cbn in H;
  repeat (destruct H as [H | H];
          [ first [ discriminate H | injection H as <- <-; by fs_lookup ] | ]);
  contradiction.

(** X10. A screenshot that returned stays: in a run of any of the scripts,
    whatever fails later, the file of every screenshot call that returned
    holds at the end of the run the image that call captured. *)
Theorem returned_screenshot_stays (sc : Script) (env : Env)
    (files : gmap string (list byte)) (path : string) (img : list byte) :
  In (Ev (page_screenshot path) (Returned (VBytes img)))
     (trace (final (script_of sc) env files)) ->
  fs (final (script_of sc) env files) !! path = Some img.
Proof.
  destruct sc; cbn [script_of].
  - run_cases verify_ui env files; cbn [fs trace record store emit];
      intros Hin; screenshot_in_trace Hin.
  - run_cases verify_manual_button env files; cbn [fs trace record store emit];
      intros Hin; screenshot_in_trace Hin.
  - run_cases verify_analysis_ui env files; cbn [fs trace record store emit];
      intros Hin; screenshot_in_trace Hin.
Qed.

Lemma returned_screenshot_stays_witness :
  fs (final verify_ui (cooperative stale) ∅)
    !! "/home/jules/verification/home_v2.png" = Some stale.
Proof.
  apply (returned_screenshot_stays VerifyUI (cooperative stale) ∅).
  vm_compute. auto 10.
Defined.

(** ** What is printed *)

Ltac announced H :=
  cbn in H;
  repeat (destruct H as [H | H];
          [ first [ discriminate H
                  | eexists; split; [ in_trace | by fs_lookup ] ] | ]);
  contradiction.

(** X6. The lines that announce a screenshot are true: when "Home
    screenshot taken", "Editor screenshot taken" or "Screenshot saved to ..."
    is among the lines a run printed, the screenshot call for that path has
    returned, and the file holds its image at the end of the run. *)
Theorem announcements_are_true (sc : Script) (env : Env)
    (files : gmap string (list byte)) (line path : string) :
  In (line, path) (announcements sc) ->
  In line (stdout (final (script_of sc) env files)) ->
  ∃ img : list byte,
    In (Ev (page_screenshot path) (Returned (VBytes img)))
       (trace (final (script_of sc) env files))
    ∧ fs (final (script_of sc) env files) !! path = Some img.
Proof.
  destruct sc; cbn [script_of announcements In];
    intros Hpair; repeat (destruct Hpair as [[= <- <-] | Hpair]);
    try contradiction.
  - run_cases verify_ui env files; cbn [fs trace stdout record store emit];
      intros Hin; announced Hin.
  - run_cases verify_ui env files; cbn [fs trace stdout record store emit];
      intros Hin; announced Hin.
  - run_cases verify_manual_button env files;
      cbn [fs trace stdout record store emit]; intros Hin; announced Hin.
  - run_cases verify_analysis_ui env files;
      cbn [fs trace stdout record store emit]; intros Hin; announced Hin.
Qed.

Lemma announcements_are_true_witness :
  ∃ img : list byte,
    In (Ev (page_screenshot "/home/jules/verification/home_v2.png")
           (Returned (VBytes img)))
       (trace (final verify_ui (cooperative stale) ∅))
    ∧ fs (final verify_ui (cooperative stale) ∅)
        !! "/home/jules/verification/home_v2.png" = Some img.
Proof.
  apply (announcements_are_true VerifyUI (cooperative stale) ∅
           "Home screenshot taken").
  - vm_compute. auto.
  - vm_compute. auto.
Defined.

(** ** Failures outside the [try] statement *)

(** X7. The calls before the steps are not covered by any handler: when the
    launch of the browser, the creation of the context or the creation of the
    page raises, the script prints nothing, takes no screenshot, does not
    call [browser.close()], leaves the files as they were, stops Playwright
    and ends with an exception. *)
Theorem setup_failure_is_not_handled (sc : Script) (env : Env)
    (files : gmap string (list byte)) :
  existsb (failed_at is_setup) (trace (final (script_of sc) env files)) = true ->
  stdout (final (script_of sc) env files) = []
  ∧ fs (final (script_of sc) env files) = files
  ∧ existsb is_screenshot (calls (trace (final (script_of sc) env files)))
    = false
  ∧ existsb is_browser_close (calls (trace (final (script_of sc) env files)))
    = false
  ∧ last (calls (trace (final (script_of sc) env files)))
    = Some sync_playwright_exit
  ∧ ∃ e, result (script_of sc) env files = Raise e.
Proof.
  destruct sc; cbn [script_of].
  - run_cases verify_ui env files; cbn; try discriminate;
      intros _; conjuncts; try reflexivity; eauto.
  - run_cases verify_manual_button env files; cbn; try discriminate;
      intros _; conjuncts; try reflexivity; eauto.
  - run_cases verify_analysis_ui env files; cbn; try discriminate;
      intros _; conjuncts; try reflexivity; eauto.
Qed.

Lemma setup_failure_is_not_handled_witness :
  stdout (final verify_manual_button no_browser ∅) = []
  ∧ existsb is_browser_close
      (calls (trace (final verify_manual_button no_browser ∅))) = false
  ∧ ∃ e, result verify_manual_button no_browser ∅ = Raise e.
Proof.
  destruct (setup_failure_is_not_handled VerifyManualButton no_browser ∅)
    as (Hout & _ & _ & Hclose & _ & Hres).
  - vm_compute. reflexivity.
  - exact (conj Hout (conj Hclose Hres)).
Defined.

(** ** [verify_ui]: failures are reported *)

(** X9. [verify_ui] reports every failure: its run ends with the exception
    of the last call that raised, and without error only when no call
    raised.  [browser.close()] is called exactly when the eight calls before
    it have returned. *)
Theorem verify_ui_reports_failures (env : Env) (files : gmap string (list byte)) :
  result verify_ui env files
  = match last_raised (trace (final verify_ui env files)) with
    | Some e => Raise e
    | None => Ok tt
    end
  ∧ existsb is_browser_close (calls (trace (final verify_ui env files)))
    = forallb returned (take 8 (trace (final verify_ui env files)))
      && (8 <=? length (trace (final verify_ui env files)))%nat.
Proof.
  run_cases verify_ui env files; cbn; split; reflexivity.
Qed.

(** ** Exceptions that are not an [Exception] *)

(** X8. An exception of a step that is not an [Exception] (an interrupt)
    passes the handler of [verify_manual_button] and [verify_analysis_ui]:
    no "Error: " line is printed, no screenshot is attempted and no file is
    written for it; the only calls after the step are [browser.close()] and
    the stop of Playwright, and the exception leaves the script (replaced by
    that of a closing call that raises). *)
Theorem interrupt_passes_the_handler (s : Guarded) (env : Env)
    (files : gmap string (list byte)) (e : exn) (w1 : World) :
  setup_returns env ->
  steps_of s the_page env (entered files) = (Raise e, w1) ->
  is_Exception e = false ->
  ∃ closing stopping : Outcome,
    trace (final (guarded_script s) env files)
    = (trace w1 ++ [ Ev browser_close closing;
                     Ev sync_playwright_exit stopping ])%list
    ∧ stdout (final (guarded_script s) env files) = stdout w1
    ∧ fs (final (guarded_script s) env files) = fs w1
    ∧ result (guarded_script s) env files
      = match stopping, closing with
        | Raised e3, _ => Raise e3
        | Returned _, Raised e2 => Raise e2
        | Returned _, Returned _ => Raise e
        end.
Proof.
  intros Hsetup Hbody Hexc. unfold result, final.
  destruct (run_enters_try s env files Hsetup) as [stopping ->].
  destruct (finally_closes s env the_browser the_page (entered files))
    as [closing ->].
  rewrite except_of_eq.
  rewrite (not_caught _ _ _ _ _ _ _ Hbody Hexc).
  exists closing, stopping. cbn. rewrite <- app_assoc.
  split; [ done | ]. split; [ done | ]. split; [ done | ].
  by destruct stopping, closing.
Qed.

Lemma interrupt_passes_the_handler_witness :
  ∃ closing stopping : Outcome,
    trace (final verify_manual_button interrupted ∅)
    = [ Ev sync_playwright_enter (Returned VNone);
        Ev (chromium_launch true) (Returned VNone);
        Ev (browser_new_context 393 852) (Returned VNone);
        Ev context_new_page (Returned VNone);
        Ev (page_goto "http://localhost:3000") (Raised interrupt);
        Ev browser_close closing;
        Ev sync_playwright_exit stopping ]
    ∧ stdout (final verify_manual_button interrupted ∅)
      = [ "Navigating to home..." ]
    ∧ fs (final verify_manual_button interrupted ∅) = ∅
    ∧ result verify_manual_button interrupted ∅
      = match stopping, closing with
        | Raised e3, _ => Raise e3
        | Returned _, Raised e2 => Raise e2
        | Returned _, Returned _ => Raise interrupt
        end.
Proof.
  apply (interrupt_passes_the_handler ManualButton interrupted ∅ interrupt
           (snd (steps_of ManualButton the_page interrupted (entered ∅)))).
  - vm_compute. auto.
  - vm_compute. reflexivity.
  - reflexivity.
Defined.
